(** * Axios: the interceptor pipeline and verb methods of [src/index.ts]

    A shallow embedding of the class [Axios]: a wrapper around an HTTP
    transport instance that attaches the access token to outgoing requests,
    stores tokens found in responses into cookies, and refreshes the access
    token when a request fails with the token-expired status.

    Promises are modelled by explicit state passing: a call that returns a
    promise becomes a function from the state before the call to the state
    at settlement together with the settlement ([Fulfilled] or [Rejected]).
    The chain [instance -> #resOnError -> #getNewToken -> instance] is not
    bounded by the code, so the transport call carries a fuel argument. *)

From stdpp Require Import base option gmap strings list fin_maps pretty.
From Stdlib Require Import Ascii String ZArith Lia.

Open Scope Z_scope.
Open Scope string_scope.

(** ** JavaScript values *)

(** The values that travel as request and response bodies, as query
    parameters and as ids.  Numbers are the integer-valued ones; they print
    in decimal, as JavaScript prints integers below 10^21. *)
#[warnings="-register-all"] Inductive JsVal : Type :=
  | JUndefined
  | JNull
  | JBool (b : bool)
  | JNum (n : Z)
  | JStr (s : string)
  | JObj (fields : gmap string JsVal).

(** [if (v)] *)
Definition truthy (v : JsVal) : bool :=
  match v with
  | JUndefined | JNull => false
  | JBool b => b
  | JNum n => negb (n =? 0)%Z
  | JStr s => negb (String.eqb s "")
  | JObj _ => true
  end.

(** [String(v)], the text a template literal or a cookie write produces. *)
Definition to_string (v : JsVal) : string :=
  match v with
  | JUndefined => "undefined"
  | JNull => "null"
  | JBool true => "true"
  | JBool false => "false"
  | JNum n => pretty n
  | JStr s => s
  | JObj _ => "[object Object]"
  end.

(** [s.replace(p, r)] with a one-character string pattern [p]: the first
    occurrence of [p] is replaced, the rest of the string is kept. *)
Fixpoint replace (p r : ascii) (s : string) : string :=
  match s with
  | EmptyString => EmptyString
  | String c rest =>
      if Ascii.eqb c p then String r rest else String c (replace p r rest)
  end.

(** The reading the specification gives of the same call: every occurrence
    of [p] is replaced. *)
Fixpoint replace_every (p r : ascii) (s : string) : string :=
  match s with
  | EmptyString => EmptyString
  | String c rest =>
      String (if Ascii.eqb c p then r else c) (replace_every p r rest)
  end.

(** Number of occurrences of a character in a string. *)
Fixpoint occurrences (p : ascii) (s : string) : nat :=
  match s with
  | EmptyString => O
  | String c rest => ((if Ascii.eqb c p then 1 else 0) + occurrences p rest)%nat
  end.

(** [v === w] where [w] is a primitive. *)
Definition strict_eq (v w : JsVal) : bool :=
  match v, w with
  | JUndefined, JUndefined => true
  | JNull, JNull => true
  | JBool a, JBool b => Bool.eqb a b
  | JNum a, JNum b => (a =? b)%Z
  | JStr a, JStr b => String.eqb a b
  | _, _ => false
  end.

(** [v.k]: a property read.  The callers below rule out [undefined] and
    [null] before reading; a primitive has no own property [k]. *)
Definition field (k : string) (v : JsVal) : JsVal :=
  match v with
  | JObj fields => default JUndefined (fields !! k)
  | _ => JUndefined
  end.

(** A template literal with one optional-chained string inside it. *)
Definition template (o : option string) : string := default "undefined" o.

(** ** Constants of [constants/] *)

(** A cookie attribute: text, flag or date (milliseconds since the epoch). *)
Inductive AttrVal : Type :=
  | AStr (s : string)
  | ABool (b : bool)
  | ADate (t : Z).

(** The module [constants/] is imported by [src/index.ts]; its values are
    taken as parameters. *)
Record Constants : Type := {
  COOKIE_KEY_ACCESS_TOKEN : string;
  COOKIE_KEY_REFRESH_TOKEN : string;
  COOKIE_EXPIRE_ACCESS_TOKEN : Z;
  COOKIE_EXPIRE_REFRESH_TOKEN : Z;
  COOKIE_CONFIG_DEFAULT : gmap string AttrVal;
  COOKIE_API_PATH_GET_NEW_ACCESS_TOKEN : string;
  STATUS_CODE_TOKEN_EXPIRE : Z;
  METHOD_GET : string;
  METHOD_POST : string;
  METHOD_PUT : string;
  METHOD_PATCH : string;
  METHOD_DELETE : string
}.

(** ** The cookie accessor *)

Record CookieEntry : Type := {
  value : string;
  options : gmap string AttrVal
}.

(** Modelled from the spec: the class [Cookie] of [utils], a get/set
    accessor over the browser cookie jar.  The jar maps a key to the string
    stored under it together with the options of the write; [get] of a key
    that was never written is [undefined]. *)
Definition cookie_get (key : string) (jar : gmap string CookieEntry)
  : option string :=
  value <$> jar !! key.

Definition cookie_set (key : string) (v : string)
    (opts : gmap string AttrVal) (jar : gmap string CookieEntry)
  : gmap string CookieEntry :=
  <[key := {| value := v; options := opts |}]> jar.

(** ** Requests, responses, errors *)

Record Config : Type := {
  method : string;
  url : string;
  params : option (gmap string JsVal);
  data : JsVal;
  headers : gmap string string
}.

(** [{...config, headers: h}] *)
Definition with_headers (config : Config) (h : gmap string string) : Config :=
  {| method := method config;
     url := url config;
     params := params config;
     data := data config;
     headers := h |}.

Record Response : Type := {
  status : Z;
  res_headers : gmap string string;
  res_data : JsVal;
  res_config : Config
}.

(** What a rejected promise carries: an error of the transport, with the
    request's configuration and the response when there was one, or a
    [TypeError] thrown by the client's own code. *)
Inductive Error : Type :=
  | AxiosError (config : Config) (response : option Response)
  | TypeError.

Inductive Settled : Type :=
  | Fulfilled (res : Response)
  | Rejected (err : Error).

(** What the network does with a request: no answer at all, or an HTTP
    answer with a status, headers and a body. *)
Inductive Answer : Type :=
  | NoAnswer
  | Reply (st : Z) (h : gmap string string) (body : JsVal).

(** The transport's settlement of a dispatched request: a 2xx answer
    fulfils, any other answer rejects with the response attached, no answer
    rejects without a response. *)
Definition settle (config : Config) (a : Answer) : Response + Error :=
  match a with
  | NoAnswer => inr (AxiosError config None)
  | Reply st h body =>
      let res := {| status := st; res_headers := h; res_data := body;
                    res_config := config |} in
      if (200 <=? st)%Z && (st <? 300)%Z then inl res
      else inr (AxiosError config (Some res))
  end.

(** [instance.post(url, data)] builds this request. *)
Definition post_config (u : string) (d : JsVal) : Config :=
  {| method := "post"; url := u; params := None; data := d; headers := ∅ |}.

(** ** The class [Axios] *)

(** The fields of an [Axios] object.  [#instance] is the transport modelled
    by [instance] below; [#cookie] is the accessor over the cookie jar of
    the state. *)
Record Axios : Type := {
  auth : bool
}.

(** [new Axios(isAuthReq)]; the argument defaults to [false].  The base URL
    of the transport is read from the environment and plays no part in what
    follows; [#setInterceptor] installs the two interceptor pairs, which
    [instance] below applies around every request. *)
Definition constructor (isAuthReq : option bool) : Axios :=
  {| auth := default false isAuthReq |}.

Section Client.

Variable K : Constants.

(** The world outside the client: it has a clock (read by [new Date()])
    and it answers requests.  Time passes, and the world changes, only
    while a request is in flight. *)
Variable World : Type.
Variable now : World -> Z.
Variable network : Config -> World -> World * Answer.

(** The state the client runs in: the cookie jar, the world, and the
    requests handed to the network so far, oldest first. *)
Record State : Type := {
  jar : gmap string CookieEntry;
  world : World;
  sent : list Config
}.

Definition set_jar (j : gmap string CookieEntry) (σ : State) : State :=
  {| jar := j; world := world σ; sent := sent σ |}.

(** *** Request interceptor *)

Definition setAuthReq (config : Config) (σ : State) : Config :=
  with_headers config
    (<["Authorization" :=
         template (replace "%" " "
                     <$> cookie_get (COOKIE_KEY_ACCESS_TOKEN K) (jar σ))]>
       (headers config)).

Definition reqMiddleWare (this : Axios) (config : Config) (σ : State)
  : Config :=
  let newConfig := config in
  let newConfig := if auth this then setAuthReq newConfig σ else newConfig in
  newConfig.

(** The rejection handler of the request interceptor.  No interceptor is
    installed before [#reqMiddleWare], which does not throw, so the
    transport below never reaches it. *)
Definition reqOnError (error : Error) (σ : State)
  : option (State * Settled) :=
  Some (σ, Rejected error).

(** *** Response interceptor, success path *)

Definition resMiddleWare (res : Response) (σ : State) : State * Response :=
  let authorization := res_headers res !! "authorization" in
  let refreshtoken := res_headers res !! "refreshtoken" in
  let validUntil := (now (world σ) + COOKIE_EXPIRE_ACCESS_TOKEN K)%Z in
  let σ :=
    match authorization with
    | Some a =>
        if String.eqb a "" then σ
        else set_jar (cookie_set (COOKIE_KEY_ACCESS_TOKEN K) a
                        (<["expires" := ADate validUntil]>
                           (COOKIE_CONFIG_DEFAULT K)) (jar σ)) σ
    | None => σ
    end in
  let σ :=
    match refreshtoken with
    | Some r =>
        if String.eqb r "" then σ
        else
          let validUntil :=
            (now (world σ) + COOKIE_EXPIRE_REFRESH_TOKEN K)%Z in
          set_jar (cookie_set (COOKIE_KEY_REFRESH_TOKEN K) r
                     (<["expires" := ADate validUntil]>
                        (COOKIE_CONFIG_DEFAULT K)) (jar σ)) σ
    | None => σ
    end in
  (σ, res).

(** *** Response interceptor, failure path *)

(** The body of the refresh request:
    [{ refreshToken: this.#cookie.get(COOKIE.KEY.REFRESH_TOKEN) }]. *)
Definition refresh_body (σ : State) : JsVal :=
  JObj {[ "refreshToken" :=
            match cookie_get (COOKIE_KEY_REFRESH_TOKEN K) (jar σ) with
            | Some r => JStr r
            | None => JUndefined
            end ]}.

(** [#getNewToken] and [#resOnError] call back into the transport; the
    transport is their first argument. *)
Definition getNewToken
    (instance : Config -> State -> option (State * Settled))
    (config : Config) (σ : State) : option (State * Settled) :=
  match instance
          (post_config (COOKIE_API_PATH_GET_NEW_ACCESS_TOKEN K)
             (refresh_body σ)) σ with
  | None => None
  | Some (σ, Rejected error) => Some (σ, Rejected error)
  | Some (σ, Fulfilled response) =>
      let validUntil := (now (world σ) + COOKIE_EXPIRE_REFRESH_TOKEN K)%Z in
      match res_data response with
      | JUndefined | JNull =>
          (* destructuring [accessToken] out of it throws *)
          Some (σ, Rejected TypeError)
      | body =>
          let accessToken := field "accessToken" body in
          let σ :=
            if truthy accessToken then
              set_jar (cookie_set (COOKIE_KEY_ACCESS_TOKEN K)
                         (to_string accessToken)
                         (<["expires" := ADate validUntil]>
                            (COOKIE_CONFIG_DEFAULT K)) (jar σ)) σ
            else σ in
          let newConfig :=
            with_headers config
              (<["Authorization" :=
                   template (replace "%" " "
                               <$> cookie_get (COOKIE_KEY_ACCESS_TOKEN K)
                                     (jar σ))]>
                 (headers config)) in
          instance newConfig σ
      end
  end.

Definition resOnError
    (instance : Config -> State -> option (State * Settled))
    (error : Error) (σ : State) : option (State * Settled) :=
  match error with
  | AxiosError config (Some response) =>
      if (status response =? STATUS_CODE_TOKEN_EXPIRE K)%Z
      then getNewToken instance config σ
      else Some (σ, Rejected error)
  | _ => Some (σ, Rejected error)
  end.

(** *** The transport with both interceptors installed *)

(** [this.#instance(config)]: the request interceptor, the network, then
    the response interceptor on the settlement.  [None] is fuel used up
    before the promise settles. *)
Fixpoint instance (this : Axios) (fuel : nat) (config : Config) (σ : State)
  : option (State * Settled) :=
  match fuel with
  | O => None
  | S fuel =>
      let config := reqMiddleWare this config σ in
      let '(w, answer) := network config (world σ) in
      let σ := {| jar := jar σ; world := w; sent := sent σ ++ [config] |} in
      match settle config answer with
      | inl res =>
          let '(σ, res) := resMiddleWare res σ in Some (σ, Fulfilled res)
      | inr error => resOnError (instance this fuel) error σ
      end
  end.

(** *** Verb methods *)

Definition get_config (endPoint : string) : Config :=
  {| method := METHOD_GET K; url := endPoint; params := None;
     data := JUndefined; headers := ∅ |}.

Definition getByQuery_config (endPoint : string) (query : gmap string JsVal)
  : Config :=
  {| method := METHOD_GET K; url := endPoint; params := Some query;
     data := JUndefined; headers := ∅ |}.

Definition getByParams_config (endPoint : string) (params : JsVal)
  : Config :=
  {| method := METHOD_GET K; url := endPoint ++ "/" ++ to_string params;
     params := None; data := JUndefined; headers := ∅ |}.

Definition put_config (endPoint : string) (data : JsVal) (id : JsVal)
  : Config :=
  {| method := METHOD_PUT K;
     url := if truthy id || strict_eq id (JStr "") || strict_eq id (JNum 0)
            then endPoint ++ "/" ++ to_string id else endPoint;
     params := None; data := data; headers := ∅ |}.

Definition post_verb_config (endPoint : string) (data : JsVal) : Config :=
  {| method := METHOD_POST K; url := endPoint; params := None;
     data := data; headers := ∅ |}.

Definition postMultipartFormData_config (endPoint : string) (data : JsVal)
  : Config :=
  {| method := "POST"; url := endPoint; params := None; data := data;
     headers := {[ "Content-Type" := "multipart/form-data" ]} |}.

Definition patch_config (endPoint : string) (data : JsVal) : Config :=
  {| method := METHOD_PATCH K; url := endPoint; params := None;
     data := data; headers := ∅ |}.

Definition putFormData_config (endPoint : string) (data : JsVal) : Config :=
  {| method := METHOD_PUT K; url := endPoint; params := None; data := data;
     headers := {[ "Content-Type" := "multipart/form-data" ]} |}.

Definition delete_config (endPoint : string) (id : JsVal) : Config :=
  {| method := METHOD_DELETE K; url := endPoint ++ "/" ++ to_string id;
     params := None; data := JUndefined; headers := ∅ |}.

Definition get (this : Axios) (fuel : nat) (endPoint : string) :=
  instance this fuel (get_config endPoint).

Definition getByQuery (this : Axios) (fuel : nat) (endPoint : string)
    (query : gmap string JsVal) :=
  instance this fuel (getByQuery_config endPoint query).

Definition getByParams (this : Axios) (fuel : nat) (endPoint : string)
    (params : JsVal) :=
  instance this fuel (getByParams_config endPoint params).

(** [id] is [JUndefined] when the caller leaves it out. *)
Definition put (this : Axios) (fuel : nat) (endPoint : string)
    (data : JsVal) (id : JsVal) :=
  instance this fuel (put_config endPoint data id).

Definition post (this : Axios) (fuel : nat) (endPoint : string)
    (data : JsVal) :=
  instance this fuel (post_verb_config endPoint data).

Definition postMultipartFormData (this : Axios) (fuel : nat)
    (endPoint : string) (data : JsVal) :=
  instance this fuel (postMultipartFormData_config endPoint data).

(** [data] is [JObj ∅] when the caller leaves it out. *)
Definition patch (this : Axios) (fuel : nat) (endPoint : string)
    (data : JsVal) :=
  instance this fuel (patch_config endPoint data).

Definition putFormData (this : Axios) (fuel : nat) (endPoint : string)
    (data : JsVal) :=
  instance this fuel (putFormData_config endPoint data).

Definition delete (this : Axios) (fuel : nat) (endPoint : string)
    (id : JsVal) :=
  instance this fuel (delete_config endPoint id).

End Client.

Arguments jar {World} _.
Arguments world {World} _.
Arguments sent {World} _.
Arguments set_jar {World} _ _.
Arguments setAuthReq K {World} _ _.
Arguments reqMiddleWare K {World} _ _ _.
Arguments resMiddleWare K {World} _ _ _.
Arguments refresh_body K {World} _.
Arguments getNewToken K {World} _ _ _ _.
Arguments resOnError K {World} _ _ _.
Arguments instance K {World} _ _ _ _ _ _.
Arguments get K {World} _ _ _ _ _.
Arguments getByQuery K {World} _ _ _ _ _ _.
Arguments getByParams K {World} _ _ _ _ _ _.
Arguments put K {World} _ _ _ _ _ _ _.
Arguments post K {World} _ _ _ _ _ _.
Arguments postMultipartFormData K {World} _ _ _ _ _ _.
Arguments patch K {World} _ _ _ _ _ _.
Arguments putFormData K {World} _ _ _ _ _ _.
Arguments delete K {World} _ _ _ _ _ _.
Arguments reqOnError {World} _ _.

(** ** A scripted world, for running the client on concrete inputs *)

(** The clock advances by one millisecond per request; the answers are
    handed out in order, and there is no answer once they are used up. *)
Record Script : Type := {
  clock : Z;
  answers : list Answer
}.

Definition script_network (_ : Config) (w : Script) : Script * Answer :=
  match answers w with
  | [] => ({| clock := clock w + 1; answers := [] |}, NoAnswer)
  | a :: rest => ({| clock := clock w + 1; answers := rest |}, a)
  end.

(** A world that answers every request with status 401. *)
Definition always_expired (_ : Config) (w : Script) : Script * Answer :=
  ({| clock := clock w + 1; answers := answers w |}, Reply 401 ∅ JNull).

Definition sample_constants : Constants :=
  {| COOKIE_KEY_ACCESS_TOKEN := "accessToken";
     COOKIE_KEY_REFRESH_TOKEN := "refreshToken";
     COOKIE_EXPIRE_ACCESS_TOKEN := 1800000;
     COOKIE_EXPIRE_REFRESH_TOKEN := 1209600000;
     COOKIE_CONFIG_DEFAULT := {[ "path" := AStr "/" ]};
     COOKIE_API_PATH_GET_NEW_ACCESS_TOKEN := "/auth/token";
     STATUS_CODE_TOKEN_EXPIRE := 401;
     METHOD_GET := "GET";
     METHOD_POST := "POST";
     METHOD_PUT := "PUT";
     METHOD_PATCH := "PATCH";
     METHOD_DELETE := "DELETE" |}.

Definition script_state (j : gmap string CookieEntry) (t : Z)
    (l : list Answer) : State Script :=
  {| jar := j; world := {| clock := t; answers := l |}; sent := [] |}.

Definition run (this : Axios) (fuel : nat) (config : Config)
    (σ : State Script) : option (State Script * Settled) :=
  instance sample_constants clock script_network this fuel config σ.

Definition token (v : string) : gmap string CookieEntry :=
  cookie_set "accessToken" v ∅ ∅.

Definition ok_body : JsVal := JObj {[ "name" := JStr "x" ]}.

Definition items : Config := get_config sample_constants "items".

Definition new_token (t : string) : Answer :=
  Reply 200 ∅ (JObj {[ "accessToken" := JStr t ]}).

Definition expired_response (config : Config) : Response :=
  {| status := 401; res_headers := ∅; res_data := JNull;
     res_config := config |}.

Definition on : Axios := {| auth := true |}.

(** A world that answers 401, then a new token, then 200, seen from a jar
    that also holds a cookie of the page's own. *)
Definition refresh_run : State Script :=
  script_state (<["theme" := {| value := "dark"; options := ∅ |}]>
                  (token "oldtok")) 1000
    [Reply 401 ∅ JNull; new_token "newtok"; Reply 200 ∅ ok_body].

(** A world that answers 401, then a new token, then 500. *)
Definition failing_run : State Script :=
  script_state (token "oldtok") 1000
    [Reply 401 ∅ JNull; new_token "newtok"; Reply 500 ∅ JNull].

(** A world that answers 401, then [null] from the refresh endpoint. *)
Definition null_run : State Script :=
  script_state (token "oldtok") 1000
    [Reply 401 ∅ JNull; Reply 200 ∅ JNull; Reply 200 ∅ ok_body].

(** A world whose refresh endpoint answers with the token in a header. *)
Definition header_run : State Script :=
  script_state (token "oldtok") 1000
    [Reply 200 {[ "authorization" := "hdr%tok" ]} (JObj ∅);
     Reply 200 ∅ ok_body].

Definition tokens_response : Response :=
  {| status := 200;
     res_headers := {[ "authorization" := "tok1"; "refreshtoken" := "tok2" ]};
     res_data := ok_body;
     res_config := items |}.

(** ** Vocabulary of the statements *)

(** The error carries an HTTP response whose status is the configured
    token-expired status. *)
Definition token_expired (K : Constants) (error : Error) : bool :=
  match error with
  | AxiosError _ (Some response) =>
      (status response =? STATUS_CODE_TOKEN_EXPIRE K)%Z
  | _ => false
  end.

(** The options of a cookie write that expires at [t]. *)
Definition expiring (K : Constants) (t : Z) : gmap string AttrVal :=
  <["expires" := ADate t]> (COOKIE_CONFIG_DEFAULT K).

(** The request [#getNewToken] re-issues for [config] from state [σ]. *)
Definition retry_config (K : Constants) {World : Type} (config : Config)
    (σ : State World) : Config :=
  with_headers config
    (<["Authorization" :=
         template (replace "%" " "
                     <$> cookie_get (COOKIE_KEY_ACCESS_TOKEN K) (jar σ))]>
       (headers config)).

(** The state [#getNewToken] leaves once the refresh request was fulfilled
    with [refresh] in state [σ]: the access-token cookie is written when the
    body has a truthy [accessToken], and nothing is written otherwise. *)
Definition refreshed (K : Constants) {World : Type} (now : World -> Z)
    (refresh : Response) (σ : State World) : State World :=
  let accessToken := field "accessToken" (res_data refresh) in
  if truthy accessToken then
    set_jar (cookie_set (COOKIE_KEY_ACCESS_TOKEN K) (to_string accessToken)
               (expiring K (now (world σ) + COOKIE_EXPIRE_REFRESH_TOKEN K))
               (jar σ)) σ
  else σ.

(** The state in which a request is in flight, and the state at the moment
    the network has answered it. *)
Definition answered {World : Type} (σ : State World) (w : World)
    (config : Config) : State World :=
  {| jar := jar σ; world := w; sent := sent σ ++ [config] |}.

(** * Properties *)

(** ** Strings *)

Lemma replace_absent (p r : ascii) (s : string) :
  occurrences p s = O -> replace p r s = s.
Proof.
  induction s as [|c rest IH]; simpl; [reflexivity|].
  destruct (Ascii.eqb c p); [discriminate|].
  intros H. f_equal. apply IH. exact H.
Qed.

Lemma append_cons (c : ascii) (s t : string) :
  String c s ++ t = String c (s ++ t).
Proof. reflexivity. Qed.

Lemma append_empty (t : string) : "" ++ t = t.
Proof. reflexivity. Qed.

Lemma replace_first_occurrence (p r : ascii) (pre post : string) :
  occurrences p pre = O ->
  replace p r (pre ++ String p post) = pre ++ String r post.
Proof.
  induction pre as [|c rest IH]; rewrite ?append_cons, ?append_empty; simpl.
  - intros _. rewrite Ascii.eqb_refl. reflexivity.
  - destruct (Ascii.eqb c p); [discriminate|].
    intros H. f_equal. apply IH. exact H.
Qed.

Lemma replace_every_absent (p r : ascii) (s : string) :
  occurrences p s = O -> replace_every p r s = s.
Proof.
  induction s as [|c rest IH]; simpl; [reflexivity|].
  destruct (Ascii.eqb c p); [discriminate|].
  intros H. f_equal. apply IH. exact H.
Qed.

Lemma replace_at_most_one (p r : ascii) (s : string) :
  (occurrences p s <= 1)%nat -> replace p r s = replace_every p r s.
Proof.
  induction s as [|c rest IH]; simpl; [reflexivity|].
  destruct (Ascii.eqb c p); simpl; intros H.
  - f_equal. symmetry. apply replace_every_absent. lia.
  - f_equal. apply IH. exact H.
Qed.

Lemma append_length (s t : string) :
  String.length (s ++ t) = (String.length s + String.length t)%nat.
Proof.
  induction s as [|c rest IH]; rewrite ?append_cons, ?append_empty; simpl;
    [reflexivity|].
  now rewrite IH.
Qed.

Lemma append_slash_neq (s t : string) : s ++ "/" ++ t <> s.
Proof.
  intros H. apply (f_equal String.length) in H.
  rewrite !append_length in H. simpl in H. lia.
Qed.

(** ** The request interceptor *)

Section RequestInterceptor.

Variable K : Constants.
Variable World : Type.
Implicit Types (this : Axios) (config : Config) (σ : State World).

Lemma setAuthReq_frame config σ :
  method (setAuthReq K config σ) = method config
  /\ url (setAuthReq K config σ) = url config
  /\ params (setAuthReq K config σ) = params config
  /\ data (setAuthReq K config σ) = data config.
Proof. repeat split. Qed.

Lemma reqMiddleWare_url this config σ :
  url (reqMiddleWare K this config σ) = url config.
Proof. unfold reqMiddleWare. destruct (auth this); reflexivity. Qed.

Lemma reqMiddleWare_params this config σ :
  params (reqMiddleWare K this config σ) = params config.
Proof. unfold reqMiddleWare. destruct (auth this); reflexivity. Qed.

Lemma reqMiddleWare_method this config σ :
  method (reqMiddleWare K this config σ) = method config.
Proof. unfold reqMiddleWare. destruct (auth this); reflexivity. Qed.

Lemma reqMiddleWare_auth this config σ :
  auth this = true ->
  headers (reqMiddleWare K this config σ) !! "Authorization"
  = Some (template (replace "%" " "
                      <$> cookie_get (COOKIE_KEY_ACCESS_TOKEN K) (jar σ))).
Proof.
  intros Hauth. unfold reqMiddleWare. rewrite Hauth. simpl.
  apply lookup_insert_eq.
Qed.

(** C7.  When the client was built without authentication, the request
    interceptor hands back the configuration it was given; its headers
    are those of the input. *)
Theorem reqMiddleWare_without_auth this config σ :
  auth this = false ->
  reqMiddleWare K this config σ = config
  /\ headers (reqMiddleWare K this config σ) = headers config.
Proof.
  intros Hauth. unfold reqMiddleWare. rewrite Hauth. split; reflexivity.
Qed.

(** C6.  With authentication on and no access-token cookie in the jar,
    the outgoing request carries an [Authorization] header, and its value
    is the text [undefined]. *)
Theorem reqMiddleWare_cookie_absent this config σ :
  auth this = true ->
  cookie_get (COOKIE_KEY_ACCESS_TOKEN K) (jar σ) = None ->
  headers (reqMiddleWare K this config σ) !! "Authorization"
  = Some "undefined".
Proof.
  intros Hauth Hget. rewrite reqMiddleWare_auth by exact Hauth.
  rewrite Hget. reflexivity.
Qed.

(** C4, amended.  With authentication on and an access-token cookie of
    value [v], the [Authorization] header is [v] with its first [%]
    replaced by a space: the text before the first [%] and the text after
    it are kept as they are, a value without [%] is sent as it is, and
    for a value with at most one [%] this is the replacement of every
    [%]; the value [abc%def] is sent as [abc def]. *)
Theorem reqMiddleWare_first_percent this config σ (v : string) :
  auth this = true ->
  cookie_get (COOKIE_KEY_ACCESS_TOKEN K) (jar σ) = Some v ->
  headers (reqMiddleWare K this config σ) !! "Authorization"
  = Some (replace "%" " " v)
  /\ (forall pre post : string,
        v = pre ++ String "%" post -> occurrences "%" pre = O ->
        replace "%" " " v = pre ++ String " " post)
  /\ (occurrences "%" v = O -> replace "%" " " v = v)
  /\ ((occurrences "%" v <= 1)%nat ->
      replace "%" " " v = replace_every "%" " " v)
  /\ (v = "abc%def" ->
      headers (reqMiddleWare K this config σ) !! "Authorization"
      = Some "abc def").
Proof.
  intros Hauth Hget.
  assert (Hhdr : headers (reqMiddleWare K this config σ) !! "Authorization"
                 = Some (replace "%" " " v)).
  { rewrite reqMiddleWare_auth by exact Hauth. rewrite Hget. reflexivity. }
  split; [exact Hhdr|]. split; [|split; [|split]].
  - intros pre post -> Hpre. apply replace_first_occurrence. exact Hpre.
  - apply replace_absent.
  - apply replace_at_most_one.
  - intros ->. exact Hhdr.
Qed.

End RequestInterceptor.

(** The pass-through on a request for [items] and a jar that holds a token. *)
Lemma reqMiddleWare_without_auth_witness :
  let config := get_config sample_constants "items" in
  let σ := script_state (token "abc%def") 0 [] in
  reqMiddleWare sample_constants {| auth := false |} config σ = config
  /\ headers (reqMiddleWare sample_constants {| auth := false |} config σ)
     = headers config.
Proof.
  exact (reqMiddleWare_without_auth sample_constants Script
           {| auth := false |} (get_config sample_constants "items")
           (script_state (token "abc%def") 0 []) eq_refl).
Defined.

(** The [undefined] header on a request for [items] and an empty jar. *)
Lemma reqMiddleWare_cookie_absent_witness :
  headers (reqMiddleWare sample_constants {| auth := true |}
             (get_config sample_constants "items") (script_state ∅ 0 []))
    !! "Authorization"
  = Some "undefined".
Proof.
  apply (reqMiddleWare_cookie_absent sample_constants Script
           {| auth := true |} (get_config sample_constants "items")
           (script_state ∅ 0 [])); reflexivity.
Defined.

(** The first-[%] replacement on the cookie value [abc%def]. *)
Lemma reqMiddleWare_first_percent_witness :
  headers (reqMiddleWare sample_constants {| auth := true |}
             (get_config sample_constants "items")
             (script_state (token "abc%def") 0 []))
    !! "Authorization"
  = Some "abc def".
Proof.
  apply (reqMiddleWare_first_percent sample_constants Script
           {| auth := true |} (get_config sample_constants "items")
           (script_state (token "abc%def") 0 []) "abc%def");
    reflexivity.
Defined.

(** Replacement of every [%] fails on a cookie value with two of them: the
    header that is sent keeps the second one. *)
Lemma reqMiddleWare_every_percent_counterexample :
  let this := {| auth := true |} in
  let config := get_config sample_constants "items" in
  let σ := script_state (token "a%b%c") 0 [] in
  auth this = true
  /\ cookie_get (COOKIE_KEY_ACCESS_TOKEN sample_constants) (jar σ)
     = Some "a%b%c"
  /\ headers (reqMiddleWare sample_constants this config σ) !! "Authorization"
     = Some "a b%c"
  /\ headers (reqMiddleWare sample_constants this config σ) !! "Authorization"
     <> Some (replace_every "%" " " "a%b%c").
Proof.
  repeat split; try reflexivity. vm_compute. discriminate.
Qed.

(** ** The verb methods *)

Section Verbs.

Variable K : Constants.
Variable World : Type.
Variable now : World -> Z.
Variable network : Config -> World -> World * Answer.
Implicit Types (this : Axios) (σ : State World) (endPoint : string).

(** C8.  [put] sends its request to [endPoint/id] exactly when [id] is
    truthy, or is the empty string, or is the number 0, and to the bare
    [endPoint] otherwise; the interceptor leaves that URL alone.  Every
    number and every string counts as given, a left-out [id] does not. *)
Theorem put_url this (fuel : nat) endPoint (data id : JsVal) σ :
  let given :=
    truthy id || strict_eq id (JStr "") || strict_eq id (JNum 0) in
  let config := put_config K endPoint data id in
  put K now network this fuel endPoint data id σ
  = instance K now network this fuel config σ
  /\ url (reqMiddleWare K this config σ) = url config
  /\ method config = METHOD_PUT K
  /\ url config
     = (if given then endPoint ++ "/" ++ to_string id else endPoint)
  /\ (url config = endPoint ++ "/" ++ to_string id <-> given = true)
  /\ (url config = endPoint <-> given = false)
  /\ (forall n : Z, id = JNum n -> given = true)
  /\ (forall s : string, id = JStr s -> given = true)
  /\ (id = JUndefined -> given = false)
  /\ url (put_config K "items" (JObj {[ "name" := JStr "x" ]}) (JNum 0))
     = "items/0"
  /\ url (put_config K "items" (JObj {[ "name" := JStr "x" ]}) JUndefined)
     = "items"
  /\ url (put_config K "items" (JObj {[ "name" := JStr "x" ]}) (JStr ""))
     = "items/".
Proof.
  intros given config.
  split; [reflexivity|]. split; [apply reqMiddleWare_url|].
  split; [reflexivity|]. split; [reflexivity|].
  assert (Hurl : url config
                 = if given then endPoint ++ "/" ++ to_string id
                   else endPoint) by reflexivity.
  split; [|split].
  - rewrite Hurl. destruct given; split; intros H; try reflexivity.
    + symmetry in H. apply append_slash_neq in H. contradiction.
    + discriminate.
  - rewrite Hurl. destruct given; split; intros H; try reflexivity.
    + apply append_slash_neq in H. contradiction.
    + discriminate.
  - split; [|split; [|split]].
    + intros n ->. subst given. simpl.
      destruct (n =? 0)%Z; reflexivity.
    + intros s ->. subst given. simpl.
      destruct (String.eqb s ""); reflexivity.
    + intros ->. reflexivity.
    + repeat split.
Qed.

(** C9.  [getByParams] is a GET whose URL is [endPoint/params] and which
    has no query parameters; [getByQuery] is a GET to the bare [endPoint]
    whose query parameters are the entries of [query].  The interceptor
    changes neither. *)
Theorem getByParams_getByQuery this (fuel : nat) endPoint
    (segment : JsVal) (query : gmap string JsVal) σ :
  let byParams := getByParams_config K endPoint segment in
  let byQuery := getByQuery_config K endPoint query in
  getByParams K now network this fuel endPoint segment σ
  = instance K now network this fuel byParams σ
  /\ getByQuery K now network this fuel endPoint query σ
     = instance K now network this fuel byQuery σ
  /\ method byParams = METHOD_GET K
  /\ url (reqMiddleWare K this byParams σ)
     = endPoint ++ "/" ++ to_string segment
  /\ params (reqMiddleWare K this byParams σ) = None
  /\ method byQuery = METHOD_GET K
  /\ url (reqMiddleWare K this byQuery σ) = endPoint
  /\ params (reqMiddleWare K this byQuery σ) = Some query
  /\ url (getByParams_config K "items" (JNum 42)) = "items/42"
  /\ url (getByQuery_config K "items" {[ "q" := JStr "a" ]}) = "items"
  /\ (forall ps, params
                   (getByQuery_config K "items" {[ "q" := JStr "a" ]})
                 = Some ps -> ps !! "q" = Some (JStr "a")).
Proof.
  intros byParams byQuery.
  rewrite !reqMiddleWare_url, !reqMiddleWare_params.
  repeat split. intros ps [= <-]. reflexivity.
Qed.

End Verbs.

(** ** The response interceptor, success path *)

Section ResponseInterceptor.

Variable K : Constants.
Variable World : Type.
Variable now : World -> Z.
Implicit Types (res : Response) (σ : State World).

Lemma resMiddleWare_frame res σ :
  (resMiddleWare K now res σ).2 = res
  /\ world (resMiddleWare K now res σ).1 = world σ
  /\ sent (resMiddleWare K now res σ).1 = sent σ.
Proof.
  unfold resMiddleWare.
  destruct (res_headers res !! "authorization") as [a|];
    destruct (res_headers res !! "refreshtoken") as [r|];
    try destruct (String.eqb a ""); try destruct (String.eqb r "");
    repeat split.
Qed.

(** C5, amended.  The response interceptor returns the response it was
    given and touches nothing but the cookie jar.  An [authorization]
    header with a non-empty value is written to the access-token cookie
    with the default options and expiry now + ACCESS_TOKEN TTL; a
    [refreshtoken] header with a non-empty value is written to the
    refresh-token cookie with expiry now + REFRESH_TOKEN TTL; each write
    happens whatever the other header is, and a header that is absent or
    empty leaves its cookie as it was. *)
Theorem resMiddleWare_cookies res σ :
  COOKIE_KEY_ACCESS_TOKEN K <> COOKIE_KEY_REFRESH_TOKEN K ->
  let σ' := (resMiddleWare K now res σ).1 in
  let absent (h : string) :=
    res_headers res !! h = None \/ res_headers res !! h = Some "" in
  (resMiddleWare K now res σ).2 = res
  /\ world σ' = world σ
  /\ sent σ' = sent σ
  /\ (forall a : string,
        res_headers res !! "authorization" = Some a -> a <> "" ->
        jar σ' !! COOKIE_KEY_ACCESS_TOKEN K
        = Some {| value := a;
                  options :=
                    expiring K (now (world σ)
                                + COOKIE_EXPIRE_ACCESS_TOKEN K) |})
  /\ (forall r : string,
        res_headers res !! "refreshtoken" = Some r -> r <> "" ->
        jar σ' !! COOKIE_KEY_REFRESH_TOKEN K
        = Some {| value := r;
                  options :=
                    expiring K (now (world σ)
                                + COOKIE_EXPIRE_REFRESH_TOKEN K) |})
  /\ (absent "authorization" ->
      jar σ' !! COOKIE_KEY_ACCESS_TOKEN K
      = jar σ !! COOKIE_KEY_ACCESS_TOKEN K)
  /\ (absent "refreshtoken" ->
      jar σ' !! COOKIE_KEY_REFRESH_TOKEN K
      = jar σ !! COOKIE_KEY_REFRESH_TOKEN K)
  /\ (forall key : string,
        key <> COOKIE_KEY_ACCESS_TOKEN K ->
        key <> COOKIE_KEY_REFRESH_TOKEN K ->
        jar σ' !! key = jar σ !! key).
Proof.
  intros Hkeys σ' absent.
  destruct (resMiddleWare_frame res σ) as (Hres & Hworld & Hsent).
  split; [exact Hres|]. split; [exact Hworld|]. split; [exact Hsent|].
  subst σ' absent. unfold resMiddleWare, expiring, cookie_set.
  destruct (res_headers res !! "authorization") as [a|] eqn:Ha;
    destruct (res_headers res !! "refreshtoken") as [r|] eqn:Hr;
    try destruct (String.eqb_spec a ""); try destruct (String.eqb_spec r "");
    simpl; repeat split;
    try (intros ? [= <-] ?); try (intros [[=]|[= ->]]);
    try (intros ? ? ?);
    simplify_map_eq; try reflexivity; try congruence.
Qed.

End ResponseInterceptor.

(** A response that carries both headers: both cookies are written, each
    with its own expiry. *)
Lemma resMiddleWare_cookies_witness :
  let σ' := (resMiddleWare sample_constants clock tokens_response
               (script_state ∅ 1000 [])).1 in
  jar σ' !! "accessToken"
  = Some {| value := "tok1";
            options := expiring sample_constants (1000 + 1800000) |}
  /\ jar σ' !! "refreshToken"
     = Some {| value := "tok2";
               options := expiring sample_constants (1000 + 1209600000) |}.
Proof.
  pose proof (resMiddleWare_cookies sample_constants Script clock
                tokens_response (script_state ∅ 1000 []))
    as H.
  assert (Hkeys : COOKIE_KEY_ACCESS_TOKEN sample_constants
                  <> COOKIE_KEY_REFRESH_TOKEN sample_constants)
    by discriminate.
  destruct (H Hkeys) as (_ & _ & _ & Ha & Hr & _).
  split.
  - apply (Ha "tok1"); [reflexivity | discriminate].
  - apply (Hr "tok2"); [reflexivity | discriminate].
Defined.

(** A response whose [authorization] header is present with an empty
    value: no access-token cookie is written. *)
Lemma resMiddleWare_empty_header_counterexample :
  let res := {| status := 200;
                res_headers := {[ "authorization" := "" ]};
                res_data := ok_body;
                res_config := get_config sample_constants "items" |} in
  let σ' := (resMiddleWare sample_constants clock res
               (script_state ∅ 1000 [])).1 in
  res_headers res !! "authorization" = Some ""
  /\ jar σ' !! COOKIE_KEY_ACCESS_TOKEN sample_constants = None
  /\ jar σ' !! COOKIE_KEY_ACCESS_TOKEN sample_constants
     <> Some {| value := "";
                options := expiring sample_constants (1000 + 1800000) |}.
Proof.
  repeat split. vm_compute. discriminate.
Qed.

(** ** The transport, the failure path and the refresh procedure *)

Section Transport.

Variable K : Constants.
Variable World : Type.
Variable now : World -> Z.
Variable network : Config -> World -> World * Answer.
Variable this : Axios.
Implicit Types (config : Config) (σ τ : State World) (error : Error).

Local Abbreviation transport := (instance K now network this).
Local Abbreviation refresh_request σ :=
  (post_config (COOKIE_API_PATH_GET_NEW_ACCESS_TOKEN K) (refresh_body K σ)).
Local Abbreviation is_2xx st := ((200 <=? st)%Z && (st <? 300)%Z).

(** One step of the transport. *)
Lemma instance_step (fuel : nat) config σ :
  transport (S fuel) config σ
  = let c := reqMiddleWare K this config σ in
    let σa := answered σ (network c (world σ)).1 c in
    match settle c (network c (world σ)).2 with
    | inl res => Some ((resMiddleWare K now res σa).1, Fulfilled res)
    | inr error => resOnError K now (transport fuel) error σa
    end.
Proof.
  simpl. destruct (network _ _) as [w answer]. simpl.
  destruct (settle _ answer) as [res|error]; reflexivity.
Qed.

Lemma token_expired_spec error :
  token_expired K error = true
  <-> exists config response,
        error = AxiosError config (Some response)
        /\ status response = STATUS_CODE_TOKEN_EXPIRE K.
Proof.
  split.
  - destruct error as [config [response|]|]; simpl; try discriminate.
    intros H. exists config, response. split; [reflexivity|].
    apply Z.eqb_eq. exact H.
  - intros (config & response & -> & H). simpl. apply Z.eqb_eq. exact H.
Qed.

Lemma resOnError_expired (fuel : nat) config (response : Response) σ :
  status response = STATUS_CODE_TOKEN_EXPIRE K ->
  resOnError K now (transport fuel) (AxiosError config (Some response)) σ
  = getNewToken K now (transport fuel) config σ.
Proof. intros H. simpl. apply Z.eqb_eq in H. rewrite H. reflexivity. Qed.

Lemma resOnError_other (fuel : nat) error σ :
  token_expired K error = false ->
  resOnError K now (transport fuel) error σ = Some (σ, Rejected error).
Proof.
  destruct error as [config [response|]|]; simpl; try reflexivity.
  intros ->. reflexivity.
Qed.

(** Every settled call of the transport has handed at least one request
    to the network, and has kept the record of the earlier ones. *)
Lemma instance_sent (fuel : nat) :
  forall config σ σ' (s : Settled),
    transport fuel config σ = Some (σ', s) ->
    exists l : list Config, l <> [] /\ sent σ' = (sent σ ++ l)%list.
Proof.
  induction fuel as [|fuel IH]; intros config σ σ' s; [discriminate|].
  rewrite instance_step. cbv zeta.
  set (c := reqMiddleWare K this config σ).
  set (σa := answered σ (network c (world σ)).1 c).
  assert (Hσa : sent σa = (sent σ ++ [c])%list) by reflexivity.
  destruct (settle c _) as [res|error].
  - destruct (resMiddleWare_frame K World now res σa) as (_ & _ & Hs).
    destruct (resMiddleWare K now res σa) as [τ r]. simpl in Hs.
    intros [= <- _]. exists [c]. split; [discriminate|].
    rewrite Hs. exact Hσa.
  - destruct (token_expired K error) eqn:Hexp.
    + apply token_expired_spec in Hexp as (cfg & response & -> & Hst).
      rewrite resOnError_expired by exact Hst.
      unfold getNewToken.
      destruct (transport fuel _ σa) as [[σ1 [refresh|e]]|] eqn:Hpost;
        [| |discriminate].
      * apply IH in Hpost as (l1 & _ & Hl1).
        assert (Hdone : forall τ, sent τ = sent σ1 ->
                  exists l, l <> [] /\ sent τ = (sent σ ++ l)%list).
        { intros τ Hτ. exists ([c] ++ l1)%list. split.
          - discriminate.
          - rewrite Hτ, Hl1, Hσa, <- app_assoc. reflexivity. }
        assert (Hretry : forall cfg' τ, sent τ = sent σ1 ->
                  transport fuel cfg' τ = Some (σ', s) ->
                  exists l, l <> [] /\ sent σ' = (sent σ ++ l)%list).
        { intros cfg' τ Hτ Hrun. apply IH in Hrun as (l2 & _ & Hl2).
          exists ([c] ++ l1 ++ l2)%list. split.
          - discriminate.
          - rewrite Hl2, Hτ, Hl1, Hσa, <- !app_assoc. reflexivity. }
        destruct (res_data refresh);
          try (intros [= <- _]; apply Hdone; reflexivity);
          destruct (truthy _);
          (eapply Hretry; reflexivity).
      * intros [= <- _]. apply IH in Hpost as (l1 & _ & Hl1).
        exists ([c] ++ l1)%list. split; [discriminate|].
        rewrite Hl1, Hσa, <- app_assoc. reflexivity.
    + rewrite resOnError_other by exact Hexp. intros [= <- _].
      exists [c]. split; [discriminate | exact Hσa].
Qed.

Lemma getNewToken_sent (fuel : nat) config σ σ' (s : Settled) :
  getNewToken K now (transport fuel) config σ = Some (σ', s) ->
  sent σ' <> sent σ.
Proof.
  unfold getNewToken.
  destruct (transport fuel _ σ) as [[σ1 [refresh|e]]|] eqn:Hpost;
    [| |discriminate].
  - apply instance_sent in Hpost as (l1 & Hne & Hl1).
    assert (Hgrow : forall l2, sent σ' = (sent σ1 ++ l2)%list ->
              sent σ' <> sent σ).
    { intros l2 H2 Heq. rewrite H2, Hl1, <- app_assoc in Heq.
      rewrite <- (app_nil_r (sent σ)) in Heq at 2.
      apply app_inv_head in Heq. apply app_eq_nil in Heq as [? _].
      contradiction. }
    assert (Hretry : forall cfg' τ, sent τ = sent σ1 ->
              transport fuel cfg' τ = Some (σ', s) -> sent σ' <> sent σ).
    { intros cfg' τ Hτ Hrun. apply instance_sent in Hrun as (l2 & _ & Hl2).
      apply (Hgrow l2). rewrite Hl2, Hτ. reflexivity. }
    destruct (res_data refresh);
      try (intros [= <- _]; apply (Hgrow []); rewrite app_nil_r;
           reflexivity);
      destruct (truthy _); (eapply Hretry; reflexivity).
  - intros [= <- _]. apply instance_sent in Hpost as (l1 & Hne & Hl1).
    intros Heq. rewrite Hl1 in Heq.
    rewrite <- (app_nil_r (sent σ)) in Heq at 2.
    apply app_inv_head in Heq. contradiction.
Qed.

(** C2.  The failure handler of the response interceptor runs the refresh
    procedure, on the failed request's configuration and in place of the
    rejection, when the error carries a response whose status is the
    token-expired status; every other error is rejected again as it is,
    in an unchanged state.  So a request goes out from the handler if and
    only if the error is of that kind. *)
Theorem resOnError_refresh_iff_expired (fuel : nat) error σ :
  (token_expired K error = true
   <-> exists config response,
         error = AxiosError config (Some response)
         /\ status response = STATUS_CODE_TOKEN_EXPIRE K)
  /\ (forall config response,
        error = AxiosError config (Some response) ->
        status response = STATUS_CODE_TOKEN_EXPIRE K ->
        resOnError K now (transport fuel) error σ
        = getNewToken K now (transport fuel) config σ)
  /\ (token_expired K error = false ->
      resOnError K now (transport fuel) error σ = Some (σ, Rejected error))
  /\ (forall σ' (s : Settled),
        resOnError K now (transport fuel) error σ = Some (σ', s) ->
        (token_expired K error = true <-> sent σ' <> sent σ)).
Proof.
  split; [apply token_expired_spec|].
  split; [intros config response -> Hst; apply resOnError_expired, Hst|].
  split; [apply resOnError_other|].
  intros σ' s Hrun. destruct (token_expired K error) eqn:Hexp.
  - split; [intros _|reflexivity].
    apply token_expired_spec in Hexp as (cfg & response & -> & Hst).
    rewrite resOnError_expired in Hrun by exact Hst.
    eapply getNewToken_sent. exact Hrun.
  - rewrite resOnError_other in Hrun by exact Hexp.
    injection Hrun as <- _.
    split; [discriminate|]. intros H. contradiction H. reflexivity.
Qed.

Lemma reqMiddleWare_data config σ :
  data (reqMiddleWare K this config σ) = data config.
Proof. unfold reqMiddleWare. destruct (auth this); reflexivity. Qed.

Lemma cookie_get_set (key v : string) (opts : gmap string AttrVal)
    (j : gmap string CookieEntry) :
  cookie_get key (cookie_set key v opts j) = Some v.
Proof. unfold cookie_get, cookie_set. rewrite lookup_insert_eq. reflexivity. Qed.

(** The refresh procedure when the refresh request is fulfilled with a
    body that is neither [undefined] nor [null]. *)
Lemma getNewToken_fulfilled (fuel : nat) config σ σ1 (refresh : Response) :
  transport fuel (refresh_request σ) σ = Some (σ1, Fulfilled refresh) ->
  res_data refresh <> JUndefined ->
  res_data refresh <> JNull ->
  getNewToken K now (transport fuel) config σ
  = transport fuel (retry_config K config (refreshed K now refresh σ1))
      (refreshed K now refresh σ1).
Proof.
  intros Hpost Hundef Hnull.
  unfold getNewToken, refreshed, retry_config, expiring. rewrite Hpost.
  destruct (res_data refresh); try contradiction; reflexivity.
Qed.

Lemma getNewToken_rejected (fuel : nat) config σ σ1 error :
  transport fuel (refresh_request σ) σ = Some (σ1, Rejected error) ->
  getNewToken K now (transport fuel) config σ = Some (σ1, Rejected error).
Proof. intros Hpost. unfold getNewToken. rewrite Hpost. reflexivity. Qed.

(** A request whose failure is not a token-expired response is rejected
    with that failure after this one request. *)
Lemma instance_rejected (fuel : nat) config σ (w : World) (a : Answer)
    error :
  network (reqMiddleWare K this config σ) (world σ) = (w, a) ->
  settle (reqMiddleWare K this config σ) a = inr error ->
  token_expired K error = false ->
  transport (S fuel) config σ
  = Some (answered σ w (reqMiddleWare K this config σ), Rejected error).
Proof.
  intros Hnet Hsettle Hexp. rewrite instance_step. cbv zeta.
  rewrite Hnet. simpl fst. simpl snd. rewrite Hsettle.
  apply resOnError_other. exact Hexp.
Qed.

(** A request whose failure is a token-expired response enters the
    refresh procedure. *)
Lemma instance_expired (fuel : nat) config σ (w : World)
    (h : gmap string string) (body : JsVal) :
  network (reqMiddleWare K this config σ) (world σ)
  = (w, Reply (STATUS_CODE_TOKEN_EXPIRE K) h body) ->
  is_2xx (STATUS_CODE_TOKEN_EXPIRE K) = false ->
  transport (S fuel) config σ
  = getNewToken K now (transport fuel) (reqMiddleWare K this config σ)
      (answered σ w (reqMiddleWare K this config σ)).
Proof.
  intros Hnet H2xx. rewrite instance_step. cbv zeta.
  rewrite Hnet. simpl fst. simpl snd. unfold settle. rewrite H2xx.
  apply resOnError_expired. reflexivity.
Qed.

Lemma instance_fulfilled (fuel : nat) config σ (w : World) (st : Z)
    (h : gmap string string) (body : JsVal) :
  network (reqMiddleWare K this config σ) (world σ) = (w, Reply st h body) ->
  is_2xx st = true ->
  let c := reqMiddleWare K this config σ in
  let res := {| status := st; res_headers := h; res_data := body;
                res_config := c |} in
  transport (S fuel) config σ
  = Some ((resMiddleWare K now res (answered σ w c)).1, Fulfilled res).
Proof.
  intros Hnet H2xx. rewrite instance_step. cbv zeta.
  rewrite Hnet. simpl fst. simpl snd. unfold settle. rewrite H2xx.
  reflexivity.
Qed.

(** More fuel does not change a settled promise. *)
Lemma getNewToken_mono
    (inst1 inst2 : Config -> State World -> option (State World * Settled))
    config σ (r : State World * Settled) :
  (forall c τ r', inst1 c τ = Some r' -> inst2 c τ = Some r') ->
  getNewToken K now inst1 config σ = Some r ->
  getNewToken K now inst2 config σ = Some r.
Proof.
  intros Hmono. unfold getNewToken.
  destruct (inst1 _ σ) as [[σ1 [refresh|error]]|] eqn:Hpost; [| |discriminate].
  - rewrite (Hmono _ _ _ Hpost).
    destruct (res_data refresh); try (intros H; exact H);
      apply Hmono.
  - rewrite (Hmono _ _ _ Hpost). intros H. exact H.
Qed.

Lemma instance_mono (fuel : nat) :
  forall config σ (r : State World * Settled),
    transport fuel config σ = Some r -> transport (S fuel) config σ = Some r.
Proof.
  induction fuel as [|fuel IH]; intros config σ r; [discriminate|].
  rewrite (instance_step (S fuel)), (instance_step fuel). cbv zeta.
  destruct (settle _ _) as [res|error]; [intros H; exact H|].
  destruct error as [cfg [response|]|]; simpl;
    try (intros H; exact H).
  destruct (status response =? STATUS_CODE_TOKEN_EXPIRE K)%Z;
    [|intros H; exact H].
  apply getNewToken_mono. exact IH.
Qed.

(** X12.  Against a network that answers every request with the
    token-expired status, no amount of fuel settles a request: each refresh
    request fails the same way and starts the next one. *)
Lemma refresh_never_settles :
  is_2xx (STATUS_CODE_TOKEN_EXPIRE K) = false ->
  (forall c (w : World),
      exists (w' : World) (h : gmap string string) (body : JsVal),
        network c w = (w', Reply (STATUS_CODE_TOKEN_EXPIRE K) h body)) ->
  forall (fuel : nat) config σ, transport fuel config σ = None.
Proof.
  intros H2xx Hnet fuel.
  induction fuel as [|fuel IH]; intros config σ; [reflexivity|].
  destruct (Hnet (reqMiddleWare K this config σ) (world σ))
    as (w & h & body & Hanswer).
  rewrite (instance_expired fuel config σ w h body Hanswer H2xx).
  unfold getNewToken. rewrite IH. reflexivity.
Qed.

(** C1.  A request is answered with the token-expired status, and the
    refresh request that follows is fulfilled with a body whose
    [accessToken] is the non-empty string [tok].  Then [tok] is written to
    the access-token cookie with the default options and expiry
    now + REFRESH_TOKEN TTL, the request is issued again with its
    [Authorization] header computed from that cookie and everything else
    as before, and the caller's promise settles as the retried request
    does: when the network answers the retry with a 2xx response, the
    caller is fulfilled with that response. *)
Theorem refresh_and_retry (fuel : nat) config σ (w : World)
    (h : gmap string string) (body : JsVal) σ1 (refresh : Response)
    (tok : string) :
  let c0 := reqMiddleWare K this config σ in
  let σ0 := answered σ w c0 in
  let σ2 :=
    set_jar (cookie_set (COOKIE_KEY_ACCESS_TOKEN K) tok
               (expiring K (now (world σ1) + COOKIE_EXPIRE_REFRESH_TOKEN K))
               (jar σ1)) σ1 in
  let retry :=
    with_headers c0 (<["Authorization" := replace "%" " " tok]> (headers c0))
  in
  network c0 (world σ) = (w, Reply (STATUS_CODE_TOKEN_EXPIRE K) h body) ->
  is_2xx (STATUS_CODE_TOKEN_EXPIRE K) = false ->
  transport fuel (refresh_request σ0) σ0 = Some (σ1, Fulfilled refresh) ->
  field "accessToken" (res_data refresh) = JStr tok ->
  tok <> "" ->
  jar σ2 !! COOKIE_KEY_ACCESS_TOKEN K
  = Some {| value := tok;
            options := expiring K (now (world σ1)
                                   + COOKIE_EXPIRE_REFRESH_TOKEN K) |}
  /\ retry = retry_config K c0 σ2
  /\ transport (S fuel) config σ = transport fuel retry σ2
  /\ (method retry = method config /\ url retry = url config
      /\ params retry = params config /\ data retry = data config)
  /\ headers (reqMiddleWare K this retry σ2) !! "Authorization"
     = Some (replace "%" " " tok)
  /\ (forall (n : nat) (w' : World) (st : Z) (h' : gmap string string)
        (body' : JsVal),
        fuel = S n ->
        network (reqMiddleWare K this retry σ2) (world σ1)
        = (w', Reply st h' body') ->
        is_2xx st = true ->
        exists σ3,
          transport (S fuel) config σ
          = Some (σ3,
                  Fulfilled {| status := st; res_headers := h';
                               res_data := body';
                               res_config :=
                                 reqMiddleWare K this retry σ2 |})
          /\ sent σ3 = (sent σ1 ++ [reqMiddleWare K this retry σ2])%list).
Proof.
  intros c0 σ0 σ2 retry Hnet H2xx Hpost Hfield Htok.
  assert (Hget : cookie_get (COOKIE_KEY_ACCESS_TOKEN K) (jar σ2) = Some tok)
    by apply cookie_get_set.
  assert (Hretry : retry = retry_config K c0 σ2).
  { unfold retry_config. rewrite Hget. reflexivity. }
  assert (Hrun : transport (S fuel) config σ = transport fuel retry σ2).
  { rewrite (instance_expired fuel config σ w h body Hnet H2xx).
    fold c0. fold σ0.
    assert (Hdata : res_data refresh <> JUndefined
                    /\ res_data refresh <> JNull).
    { destruct (res_data refresh); simpl in Hfield;
        split; discriminate. }
    destruct Hdata as [Hundef Hnull].
    rewrite (getNewToken_fulfilled fuel c0 σ0 σ1 refresh Hpost Hundef Hnull).
    unfold refreshed. rewrite Hfield. simpl truthy. simpl to_string.
    destruct (String.eqb_spec tok ""); [contradiction|]. simpl negb.
    cbv iota. fold σ2. rewrite <- Hretry. reflexivity. }
  split; [apply lookup_insert_eq|]. split; [exact Hretry|].
  split; [exact Hrun|].
  split.
  { subst retry c0. simpl.
    rewrite reqMiddleWare_method, reqMiddleWare_url, reqMiddleWare_params,
      reqMiddleWare_data.
    repeat split. }
  assert (Hauth : headers (reqMiddleWare K this retry σ2) !! "Authorization"
                  = Some (replace "%" " " tok)).
  { destruct (auth this) eqn:Ha.
    - rewrite reqMiddleWare_auth by exact Ha. rewrite Hget. reflexivity.
    - unfold reqMiddleWare. rewrite Ha. apply lookup_insert_eq. }
  split; [exact Hauth|].
  intros n w' st h' body' -> Hnet' H2xx'.
  rewrite Hrun.
  assert (Hworld : world σ2 = world σ1) by reflexivity.
  rewrite <- Hworld in Hnet'.
  rewrite (instance_fulfilled n retry σ2 w' st h' body' Hnet' H2xx').
  cbv zeta. eexists. split; [reflexivity|].
  match goal with
  | |- context [resMiddleWare K now ?res ?τ] =>
      destruct (resMiddleWare_frame K World now res τ) as (_ & _ & Hs)
  end.
  rewrite Hs. reflexivity.
Qed.

(** C10, amended.  The refresh request is fulfilled with a body that is
    neither [undefined] nor [null] and has no truthy [accessToken].  Then
    the refresh procedure writes no cookie: it re-issues the original
    request from the very state in which the refresh request settled, with
    [Authorization] computed from the access-token cookie of that state
    and everything else as in the original, and its result is the result
    of that retried request.  When the refresh response was a direct 2xx
    answer without token headers, the jar is still the one from before
    the procedure. *)
Theorem getNewToken_without_token (fuel : nat) config σ σ1
    (refresh : Response) :
  transport fuel (refresh_request σ) σ = Some (σ1, Fulfilled refresh) ->
  res_data refresh <> JUndefined ->
  res_data refresh <> JNull ->
  truthy (field "accessToken" (res_data refresh)) = false ->
  let retry := retry_config K config σ1 in
  refreshed K now refresh σ1 = σ1
  /\ getNewToken K now (transport fuel) config σ = transport fuel retry σ1
  /\ headers retry !! "Authorization"
     = Some (template (replace "%" " "
                         <$> cookie_get (COOKIE_KEY_ACCESS_TOKEN K) (jar σ1)))
  /\ (method retry = method config /\ url retry = url config
      /\ params retry = params config /\ data retry = data config)
  /\ (forall (n : nat) (w : World) (st : Z) (h : gmap string string)
        (body : JsVal),
        fuel = S n ->
        network (reqMiddleWare K this (refresh_request σ) σ) (world σ)
        = (w, Reply st h body) ->
        is_2xx st = true ->
        h !! "authorization" = None ->
        h !! "refreshtoken" = None ->
        jar σ1 = jar σ).
Proof.
  intros Hpost Hundef Hnull Hfalsy retry.
  assert (Hsame : refreshed K now refresh σ1 = σ1).
  { unfold refreshed. rewrite Hfalsy. reflexivity. }
  split; [exact Hsame|]. split.
  { rewrite (getNewToken_fulfilled fuel config σ σ1 refresh Hpost Hundef
               Hnull).
    rewrite Hsame. reflexivity. }
  split; [apply lookup_insert_eq|]. split; [repeat split|].
  intros n w st h body -> Hnet H2xx Ha Hr.
  rewrite (instance_fulfilled n _ σ w st h body Hnet H2xx) in Hpost.
  cbv zeta in Hpost. injection Hpost as <- _.
  unfold resMiddleWare. simpl res_headers. rewrite Ha, Hr. reflexivity.
Qed.

(** C3, amended.  The refresh procedure runs for a token-expired error.
    A rejection of the refresh request, or of the retried request, is
    what the caller's promise rejects with; the original error is not
    seen again.  When the network's answer to the refresh request, or to
    the retried request, is a failure other than a token-expired
    response, the promise rejects with it after that one request and
    nothing further is sent.  A token-expired answer to the refresh
    request or to the retried request starts the refresh procedure again,
    on that request. *)
Theorem refresh_failure_propagates (fuel : nat) config
    (response : Response) σ :
  status response = STATUS_CODE_TOKEN_EXPIRE K ->
  let result :=
    resOnError K now (transport fuel)
      (AxiosError config (Some response)) σ in
  let post := reqMiddleWare K this (refresh_request σ) σ in
  (forall σ1 error,
      transport fuel (refresh_request σ) σ = Some (σ1, Rejected error) ->
      result = Some (σ1, Rejected error))
  /\ (forall (n : nat) (w : World) (a : Answer) error,
        fuel = S n ->
        network post (world σ) = (w, a) ->
        settle post a = inr error ->
        token_expired K error = false ->
        result = Some (answered σ w post, Rejected error))
  /\ (forall (n : nat) (w : World) (h : gmap string string) (body : JsVal),
        fuel = S n ->
        network post (world σ)
        = (w, Reply (STATUS_CODE_TOKEN_EXPIRE K) h body) ->
        is_2xx (STATUS_CODE_TOKEN_EXPIRE K) = false ->
        transport fuel (refresh_request σ) σ
        = getNewToken K now (transport n) post (answered σ w post))
  /\ (forall σ1 (refresh : Response),
        transport fuel (refresh_request σ) σ = Some (σ1, Fulfilled refresh) ->
        res_data refresh <> JUndefined ->
        res_data refresh <> JNull ->
        let σ2 := refreshed K now refresh σ1 in
        let retry := retry_config K config σ2 in
        let retry' := reqMiddleWare K this retry σ2 in
        (forall σ3 error,
            transport fuel retry σ2 = Some (σ3, Rejected error) ->
            result = Some (σ3, Rejected error))
        /\ (forall (n : nat) (w : World) (a : Answer) error,
              fuel = S n ->
              network retry' (world σ2) = (w, a) ->
              settle retry' a = inr error ->
              token_expired K error = false ->
              result = Some (answered σ2 w retry', Rejected error))
        /\ (forall (n : nat) (w : World) (h : gmap string string)
              (body : JsVal),
              fuel = S n ->
              network retry' (world σ2)
              = (w, Reply (STATUS_CODE_TOKEN_EXPIRE K) h body) ->
              is_2xx (STATUS_CODE_TOKEN_EXPIRE K) = false ->
              result
              = getNewToken K now (transport n) retry'
                  (answered σ2 w retry'))).
Proof.
  intros Hst result post.
  assert (Hresult : result = getNewToken K now (transport fuel) config σ)
    by (apply resOnError_expired; exact Hst).
  rewrite Hresult. clear Hresult result.
  split; [intros σ1 error; apply getNewToken_rejected|].
  split.
  { intros n w a error -> Hnet Hsettle Hexp.
    apply getNewToken_rejected.
    apply (instance_rejected n _ σ w a error Hnet Hsettle Hexp). }
  split.
  { intros n w h body -> Hnet H2xx.
    apply (instance_expired n _ σ w h body Hnet H2xx). }
  intros σ1 refresh Hpost Hundef Hnull σ2 retry retry'.
  rewrite (getNewToken_fulfilled fuel config σ σ1 refresh Hpost Hundef Hnull).
  fold σ2. fold retry.
  split; [intros σ3 error H; exact H|].
  split.
  - intros n w a error -> Hnet Hsettle Hexp.
    apply (instance_rejected n retry σ2 w a error Hnet Hsettle Hexp).
  - intros n w h body -> Hnet H2xx.
    apply (instance_expired n retry σ2 w h body Hnet H2xx).
Qed.

End Transport.

(** ** The refresh procedure on scripted worlds *)

(** A world that answers 401, then a new token, then 200: the caller
    is fulfilled with the third answer, the retried request carried the new
    token, and three requests went out. *)
Lemma refresh_and_retry_witness :
  let this := {| auth := true |} in
  let σ := script_state (token "oldtok") 1000
             [Reply 401 ∅ JNull; new_token "newtok"; Reply 200 ∅ ok_body] in
  exists (σ3 : State Script) (retry : Config),
    run this 2 items σ
    = Some (σ3, Fulfilled {| status := 200; res_headers := ∅;
                             res_data := ok_body; res_config := retry |})
    /\ headers retry !! "Authorization" = Some "newtok"
    /\ List.length (sent σ3) = 3%nat.
Proof.
  intros this σ.
  edestruct (refresh_and_retry sample_constants Script clock script_network
               this 1 items σ)
    as (_ & _ & _ & _ & Hauth & Hok).
  - reflexivity.
  - reflexivity.
  - reflexivity.
  - reflexivity.
  - discriminate.
  - edestruct (Hok O) as (σ3 & Hrun & Hsent).
    + reflexivity.
    + reflexivity.
    + reflexivity.
    + exists σ3. eexists. split; [exact Hrun|]. split; [exact Hauth|].
      rewrite Hsent. reflexivity.
Defined.

(** A refresh answer whose body is an object without
    [accessToken]: the original request is re-issued with the old token,
    first [%] replaced, and the jar is the one from before. *)
Lemma getNewToken_without_token_witness :
  let this := {| auth := true |} in
  let σ := script_state (token "old%tok") 1000
             [Reply 200 ∅ (JObj ∅); Reply 200 ∅ ok_body] in
  exists (σ1 : State Script) (retry : Config),
    getNewToken sample_constants clock (run this 1) items σ
    = run this 1 retry σ1
    /\ headers retry !! "Authorization" = Some "old tok"
    /\ url retry = "items"
    /\ jar σ1 = jar σ.
Proof.
  intros this σ.
  edestruct (getNewToken_without_token sample_constants Script clock
               script_network this 1 items σ)
    as (_ & Hrun & Hauth & (_ & Hurl & _) & Hjar).
  - reflexivity.
  - discriminate.
  - discriminate.
  - reflexivity.
  - eexists. eexists. split; [exact Hrun|]. split; [exact Hauth|].
    split; [exact Hurl|].
    apply (Hjar O {| clock := 1001; answers := [Reply 200 ∅ ok_body] |}
             200 ∅ (JObj ∅)); reflexivity.
Defined.

(** A refresh answer whose body is [null]: the body
    has no truthy [accessToken], yet the procedure rejects with a
    [TypeError] right after the refresh request, and the original request
    is not issued again. *)
Lemma getNewToken_null_body_counterexample :
  let this := {| auth := true |} in
  let σ := script_state (token "old%tok") 1000
             [Reply 200 ∅ JNull; Reply 200 ∅ ok_body] in
  let result := getNewToken sample_constants clock (run this 1) items σ in
  exists (σ1 : State Script) (refresh : Response),
    run this 1
      (post_config "/auth/token" (refresh_body sample_constants σ)) σ
    = Some (σ1, Fulfilled refresh)
    /\ truthy (field "accessToken" (res_data refresh)) = false
    /\ result = Some (σ1, Rejected TypeError)
    /\ url <$> sent σ1 = ["/auth/token"]
    /\ result
       <> run this 1 (retry_config sample_constants items σ1) σ1.
Proof.
  intros this σ result. eexists. eexists.
  split; [vm_compute; reflexivity|].
  split; [reflexivity|].
  split; [vm_compute; reflexivity|].
  split; [reflexivity|]. vm_compute. discriminate.
Qed.

(** A world that does not answer the refresh request:
    the caller's promise rejects with that failure, and the refresh request
    is the only one sent. *)
Lemma refresh_failure_propagates_witness :
  let this := {| auth := true |} in
  let σ := script_state (token "oldtok") 1000 [] in
  let post :=
    reqMiddleWare sample_constants this
      (post_config "/auth/token" (refresh_body sample_constants σ)) σ in
  resOnError sample_constants clock (run this 1)
    (AxiosError items (Some (expired_response items))) σ
  = Some (answered σ {| clock := 1001; answers := [] |} post,
          Rejected (AxiosError post None)).
Proof.
  intros this σ post.
  edestruct (refresh_failure_propagates sample_constants Script clock
               script_network this 1 items (expired_response items) σ)
    as (_ & Honce & _ & _).
  - reflexivity.
  - apply (Honce O {| clock := 1001; answers := [] |} NoAnswer
             (AxiosError post None)); reflexivity.
Defined.

(** The retried request is answered with the token-expired status again: the refresh procedure runs a second time,
    so two refresh requests and two retries go out, and the rejection the
    caller receives is that of the second retry (status 500), not that of
    the first (status 401). *)
Lemma single_refresh_attempt_counterexample :
  let this := {| auth := true |} in
  let σ := script_state (token "oldtok") 1000
             [new_token "t1"; Reply 401 ∅ JNull;
              new_token "t2"; Reply 500 ∅ JNull] in
  let result :=
    resOnError sample_constants clock (run this 4)
      (AxiosError items (Some (expired_response items))) σ in
  exists (σ1 σ' : State Script) (refresh : Response) (last : Config),
    run this 4
      (post_config "/auth/token" (refresh_body sample_constants σ)) σ
    = Some (σ1, Fulfilled refresh)
    /\ (let σ2 := refreshed sample_constants clock refresh σ1 in
        let retry' :=
          reqMiddleWare sample_constants this
            (retry_config sample_constants items σ2) σ2 in
        script_network retry' (world σ2)
        = ({| clock := 1002;
              answers := [new_token "t2"; Reply 500 ∅ JNull] |},
           Reply 401 ∅ JNull)
        /\ settle retry' (Reply 401 ∅ JNull)
           = inr (AxiosError retry' (Some (expired_response retry'))))
    /\ result
       = Some (σ', Rejected (AxiosError last
                               (Some {| status := 500; res_headers := ∅;
                                        res_data := JNull;
                                        res_config := last |})))
    /\ url <$> sent σ' = ["/auth/token"; "items"; "/auth/token"; "items"]
    /\ (fun c => headers c !! "Authorization") <$> sent σ'
       = [Some "oldtok"; Some "t1"; Some "t1"; Some "t2"].
Proof.
  intros this σ result. eexists. eexists. eexists. eexists.
  split; [vm_compute; reflexivity|].
  split; [split; vm_compute; reflexivity|].
  split; [vm_compute; reflexivity|].
  split; vm_compute; reflexivity.
Qed.

(** ** Settled runs of the transport *)

Section Runs.

Variable K : Constants.
Variable World : Type.
Variable now : World -> Z.
Variable network : Config -> World -> World * Answer.
Variable this : Axios.
Implicit Types (config : Config) (σ τ : State World) (error : Error).

Local Abbreviation transport := (instance K now network this).
Local Abbreviation wire config σ := (reqMiddleWare K this config σ).
Local Abbreviation refresh_request σ :=
  (post_config (COOKIE_API_PATH_GET_NEW_ACCESS_TOKEN K) (refresh_body K σ)).
Local Abbreviation is_2xx st := ((200 <=? st)%Z && (st <? 300)%Z).
Local Abbreviation expire := (STATUS_CODE_TOKEN_EXPIRE K).

Lemma refreshed_frame (refresh : Response) σ :
  world (refreshed K now refresh σ) = world σ
  /\ sent (refreshed K now refresh σ) = sent σ.
Proof. unfold refreshed. destruct (truthy _); split; reflexivity. Qed.

Lemma refreshed_other_keys (refresh : Response) σ (key : string) :
  key <> COOKIE_KEY_ACCESS_TOKEN K ->
  jar (refreshed K now refresh σ) !! key = jar σ !! key.
Proof.
  intros Hkey. unfold refreshed. destruct (truthy _); [|reflexivity].
  simpl. unfold cookie_set. rewrite lookup_insert_ne by congruence.
  reflexivity.
Qed.

Lemma resMiddleWare_other_keys (res : Response) σ (key : string) :
  key <> COOKIE_KEY_ACCESS_TOKEN K ->
  key <> COOKIE_KEY_REFRESH_TOKEN K ->
  jar (resMiddleWare K now res σ).1 !! key = jar σ !! key.
Proof.
  intros Ha Hr. unfold resMiddleWare, cookie_set.
  destruct (res_headers res !! "authorization") as [a|];
    destruct (res_headers res !! "refreshtoken") as [r|];
    try destruct (String.eqb a ""); try destruct (String.eqb r "");
    simpl; rewrite ?lookup_insert_ne by congruence; reflexivity.
Qed.

(** Induction over the settled runs of the transport: a 2xx answer, a
    failure that is not token-expired, and the three ways the refresh
    procedure ends after a token-expired answer. *)
Lemma instance_settled_ind
    (P : Config -> State World -> State World -> Settled -> Prop) :
  (forall config σ (w : World) (st : Z) (h : gmap string string)
      (body : JsVal),
      network (wire config σ) (world σ) = (w, Reply st h body) ->
      is_2xx st = true ->
      P config σ
        (resMiddleWare K now
           {| status := st; res_headers := h; res_data := body;
              res_config := wire config σ |}
           (answered σ w (wire config σ))).1
        (Fulfilled {| status := st; res_headers := h; res_data := body;
                      res_config := wire config σ |})) ->
  (forall config σ (w : World) (a : Answer) error,
      network (wire config σ) (world σ) = (w, a) ->
      settle (wire config σ) a = inr error ->
      token_expired K error = false ->
      P config σ (answered σ w (wire config σ)) (Rejected error)) ->
  (forall config σ (w : World) (h : gmap string string) (body : JsVal)
      σ1 error,
      network (wire config σ) (world σ) = (w, Reply expire h body) ->
      is_2xx expire = false ->
      P (refresh_request (answered σ w (wire config σ)))
        (answered σ w (wire config σ)) σ1 (Rejected error) ->
      P config σ σ1 (Rejected error)) ->
  (forall config σ (w : World) (h : gmap string string) (body : JsVal)
      σ1 (refresh : Response),
      network (wire config σ) (world σ) = (w, Reply expire h body) ->
      is_2xx expire = false ->
      P (refresh_request (answered σ w (wire config σ)))
        (answered σ w (wire config σ)) σ1 (Fulfilled refresh) ->
      res_data refresh = JUndefined \/ res_data refresh = JNull ->
      P config σ σ1 (Rejected TypeError)) ->
  (forall config σ (w : World) (h : gmap string string) (body : JsVal)
      σ1 (refresh : Response) σ' (s : Settled),
      network (wire config σ) (world σ) = (w, Reply expire h body) ->
      is_2xx expire = false ->
      P (refresh_request (answered σ w (wire config σ)))
        (answered σ w (wire config σ)) σ1 (Fulfilled refresh) ->
      res_data refresh <> JUndefined ->
      res_data refresh <> JNull ->
      P (retry_config K (wire config σ) (refreshed K now refresh σ1))
        (refreshed K now refresh σ1) σ' s ->
      P config σ σ' s) ->
  forall (fuel : nat) config σ σ' (s : Settled),
    transport fuel config σ = Some (σ', s) -> P config σ σ' s.
Proof.
  intros Hok Hfail Hrej Hnull Hretry fuel.
  induction fuel as [|fuel IH]; intros config σ σ' s; [discriminate|].
  rewrite instance_step. cbv zeta.
  destruct (network (wire config σ) (world σ)) as [w a] eqn:Hnet.
  simpl fst. simpl snd.
  destruct a as [|st h body].
  - simpl. intros [= <- <-].
    apply (Hfail config σ w NoAnswer); [exact Hnet|reflexivity|reflexivity].
  - unfold settle. destruct (is_2xx st) eqn:H2xx.
    + intros [= <- <-]. apply (Hok config σ w st h body Hnet H2xx).
    + simpl resOnError.
      destruct (st =? expire)%Z eqn:Hst.
      * apply Z.eqb_eq in Hst. subst st. intros Hrun.
        destruct (transport fuel
                    (refresh_request (answered σ w (wire config σ)))
                    (answered σ w (wire config σ)))
          as [[σ1 [refresh|error]]|] eqn:Hpost.
        -- pose proof (IH _ _ _ _ Hpost) as HP.
           assert (Hd : (res_data refresh = JUndefined
                         \/ res_data refresh = JNull)
                        \/ (res_data refresh <> JUndefined
                            /\ res_data refresh <> JNull)).
           { destruct (res_data refresh); auto; right; split; discriminate. }
           destruct Hd as [Hd|[Hu Hn]].
           ++ unfold getNewToken in Hrun. rewrite Hpost in Hrun.
              assert (Hrun' : Some (σ1, Rejected TypeError) = Some (σ', s))
                by (destruct Hd as [Hd|Hd]; rewrite Hd in Hrun; exact Hrun).
              injection Hrun' as <- <-.
              apply (Hnull config σ w h body σ1 refresh Hnet H2xx HP Hd).
           ++ rewrite (getNewToken_fulfilled K World now network this fuel
                         _ _ σ1 refresh Hpost Hu Hn) in Hrun.
              apply IH in Hrun.
              apply (Hretry config σ w h body σ1 refresh σ' s Hnet H2xx HP
                       Hu Hn Hrun).
        -- rewrite (getNewToken_rejected K World now network this fuel
                      _ _ σ1 error Hpost) in Hrun.
           injection Hrun as <- <-.
           apply (Hrej config σ w h body σ1 error Hnet H2xx).
           apply (IH _ _ _ _ Hpost).
        -- unfold getNewToken in Hrun. rewrite Hpost in Hrun. discriminate.
      * intros [= <- <-].
        apply (Hfail config σ w (Reply st h body)); [exact Hnet| |].
        -- unfold settle. rewrite H2xx. reflexivity.
        -- simpl. exact Hst.
Qed.

Lemma instance_sent_head (fuel : nat) config σ σ' (s : Settled) :
  transport fuel config σ = Some (σ', s) ->
  exists l : list Config, sent σ' = (sent σ ++ wire config σ :: l)%list.
Proof.
  revert fuel config σ σ' s. apply instance_settled_ind.
  - intros config σ w st h body _ _.
    match goal with
    | |- context [resMiddleWare K now ?res ?τ] =>
        destruct (resMiddleWare_frame K World now res τ) as (_ & _ & ->)
    end.
    exists []. reflexivity.
  - intros config σ w a error _ _ _. exists []. reflexivity.
  - intros config σ w h body σ1 error _ _ [l Hl].
    eexists. rewrite Hl. simpl. rewrite <- app_assoc. reflexivity.
  - intros config σ w h body σ1 refresh _ _ [l Hl] _.
    eexists. rewrite Hl. simpl. rewrite <- app_assoc. reflexivity.
  - intros config σ w h body σ1 refresh σ' s _ _ [l1 Hl1] _ _ [l2 Hl2].
    destruct (refreshed_frame refresh σ1) as [_ Hs].
    eexists. rewrite Hl2, Hs, Hl1. simpl. rewrite <- !app_assoc.
    reflexivity.
Qed.

(** X1.  Whenever a call of the transport settles, the requests recorded
    before the call are still there and the first one added is the call's
    own request, as the request interceptor left it.  When that request was
    answered with the token-expired status, the next request is the refresh
    request: a [post] to the refresh path whose body holds the refresh-token
    cookie as it stood when the answer came in. *)
Theorem instance_request_order (fuel : nat) config σ σ' (s : Settled) :
  transport fuel config σ = Some (σ', s) ->
  (exists l : list Config, sent σ' = (sent σ ++ wire config σ :: l)%list)
  /\ (forall (w : World) (h : gmap string string) (body : JsVal),
        network (wire config σ) (world σ) = (w, Reply expire h body) ->
        is_2xx expire = false ->
        exists (c : Config) (l : list Config),
          sent σ' = (sent σ ++ wire config σ :: c :: l)%list
          /\ method c = "post"
          /\ url c = COOKIE_API_PATH_GET_NEW_ACCESS_TOKEN K
          /\ data c = JObj {[ "refreshToken" :=
                                match cookie_get (COOKIE_KEY_REFRESH_TOKEN K)
                                        (jar σ) with
                                | Some r => JStr r
                                | None => JUndefined
                                end ]}).
Proof.
  intros Hrun. split; [apply (instance_sent_head fuel config σ σ' s Hrun)|].
  intros w h body Hnet H2xx.
  destruct fuel as [|fuel]; [discriminate|].
  rewrite (instance_expired K World now network this fuel config σ w h body
             Hnet H2xx) in Hrun.
  set (σa := answered σ w (wire config σ)) in *.
  exists (wire (refresh_request σa) σa).
  assert (Hshape : method (wire (refresh_request σa) σa) = "post"
                   /\ url (wire (refresh_request σa) σa)
                      = COOKIE_API_PATH_GET_NEW_ACCESS_TOKEN K
                   /\ data (wire (refresh_request σa) σa)
                      = JObj {[ "refreshToken" :=
                                  match cookie_get (COOKIE_KEY_REFRESH_TOKEN K)
                                          (jar σ) with
                                  | Some r => JStr r
                                  | None => JUndefined
                                  end ]}).
  { rewrite reqMiddleWare_method, reqMiddleWare_url,
      (reqMiddleWare_data K World this). repeat split. }
  assert (Hhead : forall τ (l : list Config),
            sent τ = (sent σa ++ wire (refresh_request σa) σa :: l)%list ->
            sent τ = (sent σ ++ wire config σ
                        :: wire (refresh_request σa) σa :: l)%list).
  { intros τ l ->. subst σa. simpl. rewrite <- app_assoc. reflexivity. }
  unfold getNewToken in Hrun.
  destruct (transport fuel (refresh_request σa) σa)
    as [[σ1 [refresh|error]]|] eqn:Hpost; [| |discriminate].
  - apply instance_sent_head in Hpost as [l1 Hl1].
    assert (Hretry : forall cfg τ, sent τ = sent σ1 ->
              transport fuel cfg τ = Some (σ', s) ->
              exists l, sent σ' = (sent σ ++ wire config σ
                                     :: wire (refresh_request σa) σa :: l)%list).
    { intros cfg τ Hτ Hr. apply instance_sent_head in Hr as [l2 Hl2].
      exists (l1 ++ wire cfg τ :: l2)%list. apply Hhead.
      rewrite Hl2, Hτ, Hl1, <- app_assoc. reflexivity. }
    assert (Hstop : Some (σ1, Rejected TypeError) = Some (σ', s) ->
              exists l, sent σ' = (sent σ ++ wire config σ
                                     :: wire (refresh_request σa) σa :: l)%list).
    { intros [= <- _]. exists l1. apply Hhead. exact Hl1. }
    assert (Hl : exists l, sent σ' = (sent σ ++ wire config σ
                                        :: wire (refresh_request σa) σa
                                        :: l)%list).
    { destruct (res_data refresh); try (apply Hstop; exact Hrun);
        destruct (truthy _); (eapply Hretry; [|exact Hrun]; reflexivity). }
    destruct Hl as [l Hl]. exists l. split; [exact Hl|exact Hshape].
  - injection Hrun as <- _. apply instance_sent_head in Hpost as [l1 Hl1].
    exists l1. split; [apply Hhead; exact Hl1|exact Hshape].
Qed.

(** X2.  A settled call of the transport changes no cookie other than the
    access-token cookie and the refresh-token cookie. *)
Theorem instance_only_token_cookies (fuel : nat) config σ σ' (s : Settled)
    (key : string) :
  transport fuel config σ = Some (σ', s) ->
  key <> COOKIE_KEY_ACCESS_TOKEN K ->
  key <> COOKIE_KEY_REFRESH_TOKEN K ->
  jar σ' !! key = jar σ !! key.
Proof.
  intros Hrun Ha Hr. revert fuel config σ σ' s Hrun.
  apply instance_settled_ind.
  - intros config σ w st h body _ _.
    rewrite resMiddleWare_other_keys by assumption. reflexivity.
  - intros config σ w a error _ _ _. reflexivity.
  - intros config σ w h body σ1 error _ _ H. exact H.
  - intros config σ w h body σ1 refresh _ _ H _. exact H.
  - intros config σ w h body σ1 refresh σ' s _ _ H1 _ _ H2.
    rewrite H2, refreshed_other_keys by assumption. exact H1.
Qed.

(** X3.  With authentication on, every request a settled call hands to the
    network carries an [Authorization] header: the caller's request, each
    refresh request and each retry. *)
Theorem instance_authorization_everywhere (fuel : nat) config σ σ'
    (s : Settled) :
  auth this = true ->
  transport fuel config σ = Some (σ', s) ->
  exists l : list Config,
    sent σ' = (sent σ ++ l)%list
    /\ Forall (fun c => is_Some (headers c !! "Authorization")) l.
Proof.
  intros Hauth. revert fuel config σ σ' s.
  assert (Hwire : forall config σ,
            is_Some (headers (wire config σ) !! "Authorization")).
  { intros config σ. rewrite reqMiddleWare_auth by exact Hauth. eauto. }
  apply instance_settled_ind.
  - intros config σ w st h body _ _.
    match goal with
    | |- context [resMiddleWare K now ?res ?τ] =>
        destruct (resMiddleWare_frame K World now res τ) as (_ & _ & ->)
    end.
    exists [wire config σ]. split; [reflexivity|].
    constructor; [apply Hwire|constructor].
  - intros config σ w a error _ _ _.
    exists [wire config σ]. split; [reflexivity|].
    constructor; [apply Hwire|constructor].
  - intros config σ w h body σ1 error _ _ (l & Hl & Hall).
    exists (wire config σ :: l). split.
    + rewrite Hl. simpl. rewrite <- app_assoc. reflexivity.
    + constructor; [apply Hwire|exact Hall].
  - intros config σ w h body σ1 refresh _ _ (l & Hl & Hall) _.
    exists (wire config σ :: l). split.
    + rewrite Hl. simpl. rewrite <- app_assoc. reflexivity.
    + constructor; [apply Hwire|exact Hall].
  - intros config σ w h body σ1 refresh σ' s _ _ (l1 & Hl1 & Hall1) _ _
      (l2 & Hl2 & Hall2).
    destruct (refreshed_frame refresh σ1) as [_ Hs].
    exists (wire config σ :: l1 ++ l2)%list. split.
    + rewrite Hl2, Hs, Hl1. simpl. rewrite <- !app_assoc. reflexivity.
    + constructor; [apply Hwire|]. apply Forall_app. split; assumption.
Qed.

(** X4.  A rejection that reaches the caller is never a token-expired
    error: such an error always enters the refresh procedure, and what
    comes out of it is the rejection of a later request or a
    [TypeError]. *)
Theorem instance_never_rejects_expired (fuel : nat) config σ σ' error :
  transport fuel config σ = Some (σ', Rejected error) ->
  token_expired K error = false.
Proof.
  intros Hrun.
  assert (H : forall fuel config σ σ' (s : Settled),
            transport fuel config σ = Some (σ', s) ->
            forall e, s = Rejected e -> token_expired K e = false).
  { apply (instance_settled_ind
             (fun _ _ _ s => forall e, s = Rejected e ->
                                       token_expired K e = false)).
    - intros; discriminate.
    - intros config0 σ0 w a e0 _ _ Hexp e [= <-]. exact Hexp.
    - intros config0 σ0 w h body σ1 e0 _ _ IH e Heq. apply IH. exact Heq.
    - intros config0 σ0 w h body σ1 refresh _ _ _ _ e [= <-]. reflexivity.
    - intros config0 σ0 w h body σ1 refresh σ2 s _ _ _ _ _ IH. exact IH. }
  apply (H fuel config σ σ' (Rejected error) Hrun error). reflexivity.
Qed.


(** X6.  A request is answered with the token-expired status and the
    refresh request is then fulfilled with a body that is [undefined] or
    [null].  The caller's promise rejects with a [TypeError]; exactly two
    requests went out, the original one is not issued again, and the only
    cookies written are those the refresh response's own headers asked
    for. *)
Theorem refresh_null_body_rejects (n : nat) config σ (w w1 : World)
    (h h1 : gmap string string) (body body1 : JsVal) (st : Z) :
  let c := wire config σ in
  let σa := answered σ w c in
  let post := wire (refresh_request σa) σa in
  let refresh := {| status := st; res_headers := h1; res_data := body1;
                    res_config := post |} in
  let σ1 := (resMiddleWare K now refresh (answered σa w1 post)).1 in
  network c (world σ) = (w, Reply expire h body) ->
  is_2xx expire = false ->
  network post w = (w1, Reply st h1 body1) ->
  is_2xx st = true ->
  body1 = JUndefined \/ body1 = JNull ->
  transport (S (S n)) config σ = Some (σ1, Rejected TypeError)
  /\ sent σ1 = (sent σ ++ [c; post])%list
  /\ world σ1 = w1.
Proof.
  intros c σa post refresh σ1 Hnet H2xx Hnet1 H2xx1 Hbody.
  split.
  - rewrite (instance_expired K World now network this (S n) config σ w h
               body Hnet H2xx).
    fold c. fold σa. unfold getNewToken.
    rewrite (instance_fulfilled K World now network this n
               (refresh_request σa) σa w1 st h1 body1 Hnet1 H2xx1).
    cbv zeta. fold post. fold refresh. fold σ1.
    destruct Hbody as [Hb|Hb]; subst refresh; simpl res_data; rewrite Hb;
      reflexivity.
  - destruct (resMiddleWare_frame K World now refresh (answered σa w1 post))
      as (_ & Hw & Hs).
    subst σ1. rewrite Hw, Hs. split; [|reflexivity].
    subst σa. simpl. rewrite <- app_assoc. reflexivity.
Qed.

End Runs.

(** ** Interceptors on their own and together *)

Section Interceptors.

Variable K : Constants.
Variable World : Type.
Variable now : World -> Z.
Implicit Types (this : Axios) (config : Config) (σ τ : State World).

(** X7.  The request interceptor changes nothing but the [Authorization]
    header: every other header, the method, the URL, the query parameters
    and the body go out as the caller set them.  So the multipart content
    type that [postMultipartFormData] and [putFormData] set reaches the
    network. *)
Theorem reqMiddleWare_keeps_other_headers this config σ (k : string) :
  k <> "Authorization" ->
  headers (reqMiddleWare K this config σ) !! k = headers config !! k
  /\ method (reqMiddleWare K this config σ) = method config
  /\ url (reqMiddleWare K this config σ) = url config
  /\ params (reqMiddleWare K this config σ) = params config
  /\ data (reqMiddleWare K this config σ) = data config
  /\ (forall (endPoint : string) (d : JsVal),
        headers (reqMiddleWare K this
                   (postMultipartFormData_config endPoint d) σ)
          !! "Content-Type" = Some "multipart/form-data"
        /\ headers (reqMiddleWare K this
                      (putFormData_config K endPoint d) σ)
             !! "Content-Type" = Some "multipart/form-data").
Proof.
  intros Hk. unfold reqMiddleWare. destruct (auth this); simpl.
  - rewrite lookup_insert_ne by congruence. repeat split.
  - repeat split.
Qed.

(** X8.  Running the request interceptor on its own output, in the same
    state, changes nothing; and it leaves the request [#getNewToken]
    builds for the retry exactly as built, whether or not authentication
    is on. *)
Theorem reqMiddleWare_idempotent this config σ :
  reqMiddleWare K this (reqMiddleWare K this config σ) σ
  = reqMiddleWare K this config σ
  /\ reqMiddleWare K this (retry_config K config σ) σ
     = retry_config K config σ.
Proof.
  unfold reqMiddleWare, setAuthReq, retry_config, with_headers.
  destruct (auth this); simpl; rewrite ?insert_insert_eq; split; reflexivity.
Qed.

(** X9.  Tokens stored from a response are the ones used next: after a
    response with a non-empty [authorization] header, an authenticated
    request carries that value (first [%] replaced) as [Authorization];
    after a response with a non-empty [refreshtoken] header, the body of a
    refresh request holds that value. *)
Theorem stored_tokens_are_used this config (res : Response) σ :
  COOKIE_KEY_ACCESS_TOKEN K <> COOKIE_KEY_REFRESH_TOKEN K ->
  let σ' := (resMiddleWare K now res σ).1 in
  (forall a : string,
      res_headers res !! "authorization" = Some a -> a <> "" ->
      auth this = true ->
      headers (reqMiddleWare K this config σ') !! "Authorization"
      = Some (replace "%" " " a))
  /\ (forall r : string,
        res_headers res !! "refreshtoken" = Some r -> r <> "" ->
        refresh_body K σ' = JObj {[ "refreshToken" := JStr r ]}).
Proof.
  intros Hkeys σ'. split.
  - intros a Ha Hne Hauth. rewrite reqMiddleWare_auth by exact Hauth.
    assert (Hget : cookie_get (COOKIE_KEY_ACCESS_TOKEN K) (jar σ') = Some a).
    { subst σ'. unfold resMiddleWare, cookie_get, cookie_set. rewrite Ha.
      destruct (String.eqb_spec a ""); [contradiction|].
      destruct (res_headers res !! "refreshtoken") as [r|];
        try destruct (String.eqb r ""); simpl;
        rewrite ?lookup_insert_ne by congruence;
        rewrite lookup_insert_eq; reflexivity. }
    rewrite Hget. reflexivity.
  - intros r Hr Hne.
    assert (Hget : cookie_get (COOKIE_KEY_REFRESH_TOKEN K) (jar σ') = Some r).
    { subst σ'. unfold resMiddleWare, cookie_get, cookie_set. rewrite Hr.
      destruct (String.eqb_spec r ""); [contradiction|].
      simpl. rewrite lookup_insert_eq. reflexivity. }
    unfold refresh_body. rewrite Hget. reflexivity.
Qed.

(** X10.  [delete] always sends to [endPoint/id], never to the bare
    [endPoint]: a left-out [id] gives [endPoint/undefined], where [put]
    gives the bare [endPoint].  The two methods build the same URL exactly
    when [put] counts the [id] as given. *)
Theorem delete_url (endPoint : string) (d id : JsVal) this σ :
  url (reqMiddleWare K this (delete_config K endPoint id) σ)
  = endPoint ++ "/" ++ to_string id
  /\ url (delete_config K endPoint id) <> endPoint
  /\ method (delete_config K endPoint id) = METHOD_DELETE K
  /\ url (delete_config K endPoint JUndefined) = endPoint ++ "/undefined"
  /\ url (put_config K endPoint d JUndefined) = endPoint
  /\ (url (put_config K endPoint d id) = url (delete_config K endPoint id)
      <-> truthy id || strict_eq id (JStr "") || strict_eq id (JNum 0)
          = true).
Proof.
  split; [apply reqMiddleWare_url|].
  split; [apply append_slash_neq|].
  split; [reflexivity|]. split; [reflexivity|]. split; [reflexivity|].
  simpl.
  destruct (truthy id || strict_eq id (JStr "") || strict_eq id (JNum 0)).
  - split; reflexivity.
  - split; [|discriminate]. intros H. symmetry in H.
    apply append_slash_neq in H. contradiction.
Qed.


End Interceptors.

Section RefreshFromHeader.

Variable K : Constants.
Variable World : Type.
Variable now : World -> Z.
Variable network : Config -> World -> World * Answer.
Variable this : Axios.
Implicit Types (config : Config) (σ τ : State World).

Lemma resMiddleWare_access_get (res : Response) σ (a : string) :
  COOKIE_KEY_ACCESS_TOKEN K <> COOKIE_KEY_REFRESH_TOKEN K ->
  res_headers res !! "authorization" = Some a -> a <> "" ->
  cookie_get (COOKIE_KEY_ACCESS_TOKEN K) (jar (resMiddleWare K now res σ).1)
  = Some a.
Proof.
  intros Hkeys Ha Hne. unfold resMiddleWare, cookie_get, cookie_set.
  rewrite Ha. destruct (String.eqb_spec a ""); [contradiction|].
  destruct (res_headers res !! "refreshtoken") as [r|];
    try destruct (String.eqb r ""); simpl;
    rewrite ?lookup_insert_ne by congruence;
    rewrite lookup_insert_eq; reflexivity.
Qed.

(** X13.  The refresh endpoint may hand out the new access token in a
    response header instead of the body: when its 2xx answer carries a
    non-empty [authorization] header and a body without a truthy
    [accessToken], the response interceptor has stored the header's value
    by the time the refresh procedure builds the retry, and the retried
    request carries that value (first [%] replaced). *)
Theorem refresh_token_from_header (n : nat) config σ (w1 : World) (st : Z)
    (h1 : gmap string string) (body1 : JsVal) (a : string) :
  let post :=
    reqMiddleWare K this
      (post_config (COOKIE_API_PATH_GET_NEW_ACCESS_TOKEN K)
         (refresh_body K σ)) σ in
  let refresh := {| status := st; res_headers := h1; res_data := body1;
                    res_config := post |} in
  let σ1 := (resMiddleWare K now refresh (answered σ w1 post)).1 in
  COOKIE_KEY_ACCESS_TOKEN K <> COOKIE_KEY_REFRESH_TOKEN K ->
  network post (world σ) = (w1, Reply st h1 body1) ->
  (200 <=? st)%Z && (st <? 300)%Z = true ->
  h1 !! "authorization" = Some a -> a <> "" ->
  body1 <> JUndefined -> body1 <> JNull ->
  truthy (field "accessToken" body1) = false ->
  getNewToken K now (instance K now network this (S n)) config σ
  = instance K now network this (S n) (retry_config K config σ1) σ1
  /\ headers (reqMiddleWare K this (retry_config K config σ1) σ1)
       !! "Authorization"
     = Some (replace "%" " " a).
Proof.
  intros post refresh σ1 Hkeys Hnet H2xx Ha Hne Hu Hn Hfalsy.
  assert (Hpost : instance K now network this (S n)
                    (post_config (COOKIE_API_PATH_GET_NEW_ACCESS_TOKEN K)
                       (refresh_body K σ)) σ
                  = Some (σ1, Fulfilled refresh)).
  { apply (instance_fulfilled K World now network this n _ σ w1 st h1 body1
             Hnet H2xx). }
  assert (Hsame : refreshed K now refresh σ1 = σ1).
  { unfold refreshed. subst refresh. simpl res_data. rewrite Hfalsy.
    reflexivity. }
  split.
  - rewrite (getNewToken_fulfilled K World now network this (S n) config σ
               σ1 refresh Hpost Hu Hn).
    rewrite Hsame. reflexivity.
  - assert (Hget : cookie_get (COOKIE_KEY_ACCESS_TOKEN K) (jar σ1) = Some a)
      by apply (resMiddleWare_access_get refresh _ a Hkeys Ha Hne).
    destruct (auth this) eqn:Hauth.
    + rewrite reqMiddleWare_auth by exact Hauth. rewrite Hget. reflexivity.
    + unfold reqMiddleWare. rewrite Hauth. unfold retry_config.
      simpl headers. rewrite lookup_insert_eq, Hget. reflexivity.
Qed.

End RefreshFromHeader.

(** ** The properties above on scripted worlds *)

(** A refreshed run: the caller's request goes out first and the refresh
    request second. *)
Lemma instance_request_order_witness :
  exists (σ' : State Script) (s : Settled) (c : Config) (l : list Config),
    run on 2 items refresh_run = Some (σ', s)
    /\ sent σ'
       = (sent refresh_run
            ++ reqMiddleWare sample_constants on items refresh_run
            :: c :: l)%list
    /\ url c = "/auth/token".
Proof.
  destruct (run on 2 items refresh_run) as [[σ' s]|] eqn:Hrun;
    [|vm_compute in Hrun; discriminate].
  destruct (instance_request_order sample_constants Script clock
              script_network on 2 items refresh_run σ' s Hrun)
    as [_ Hnext].
  edestruct Hnext as (c & l & Hs & _ & Hu & _);
    [vm_compute; reflexivity | reflexivity |].
  exists σ', s, c, l. split; [reflexivity|]. split; [exact Hs|exact Hu].
Defined.

(** A refreshed run leaves the page's own cookie alone. *)
Lemma instance_only_token_cookies_witness :
  exists (σ' : State Script) (s : Settled),
    run on 2 items refresh_run = Some (σ', s)
    /\ jar σ' !! "theme" = jar refresh_run !! "theme".
Proof.
  destruct (run on 2 items refresh_run) as [[σ' s]|] eqn:Hrun;
    [|vm_compute in Hrun; discriminate].
  exists σ', s. split; [reflexivity|].
  apply (instance_only_token_cookies sample_constants Script clock
           script_network on 2 items refresh_run σ' s "theme" Hrun);
    discriminate.
Defined.

(** All three requests of a refreshed run carry the header. *)
Lemma instance_authorization_everywhere_witness :
  exists (σ' : State Script) (s : Settled) (l : list Config),
    run on 2 items refresh_run = Some (σ', s)
    /\ sent σ' = (sent refresh_run ++ l)%list
    /\ Forall (fun c => is_Some (headers c !! "Authorization")) l.
Proof.
  destruct (run on 2 items refresh_run) as [[σ' s]|] eqn:Hrun;
    [|vm_compute in Hrun; discriminate].
  destruct (instance_authorization_everywhere sample_constants Script clock
              script_network on 2 items refresh_run σ' s eq_refl Hrun)
    as (l & Hl & Hall).
  exists σ', s, l. split; [reflexivity|]. split; [exact Hl|exact Hall].
Defined.

(** A run that ends in a rejection: what the caller sees is the 500 of the
    retry, not the 401 that started the refresh. *)
Lemma instance_never_rejects_expired_witness :
  exists (σ' : State Script) (error : Error),
    run on 2 items failing_run = Some (σ', Rejected error)
    /\ token_expired sample_constants error = false.
Proof.
  destruct (run on 2 items failing_run) as [[σ' [res|error]]|] eqn:Hrun;
    [vm_compute in Hrun; discriminate | | vm_compute in Hrun; discriminate].
  exists σ', error. split; [reflexivity|].
  apply (instance_never_rejects_expired sample_constants Script clock
           script_network on 2 items failing_run σ' error Hrun).
Defined.


(** A [null] body from the refresh endpoint: a [TypeError] after two
    requests. *)
Lemma refresh_null_body_rejects_witness :
  exists σ1 : State Script,
    run on 2 items null_run = Some (σ1, Rejected TypeError)
    /\ List.length (sent σ1) = 2%nat.
Proof.
  edestruct (refresh_null_body_rejects sample_constants Script clock
               script_network on 0 items null_run)
    as (Hrun & Hsent & _).
  - reflexivity.
  - reflexivity.
  - reflexivity.
  - reflexivity.
  - right. reflexivity.
  - eexists. split; [exact Hrun|]. rewrite Hsent. reflexivity.
Defined.

(** The content type of a multipart upload survives the interceptor. *)
Lemma reqMiddleWare_keeps_other_headers_witness :
  headers (reqMiddleWare sample_constants on
             (postMultipartFormData_config "upload" ok_body) refresh_run)
    !! "Content-Type"
  = headers (postMultipartFormData_config "upload" ok_body) !! "Content-Type".
Proof.
  apply (reqMiddleWare_keeps_other_headers sample_constants Script on
           (postMultipartFormData_config "upload" ok_body) refresh_run
           "Content-Type").
  discriminate.
Defined.

(** After a response with both token headers, the next request and the
    next refresh request use them. *)
Lemma stored_tokens_are_used_witness :
  let σ' := (resMiddleWare sample_constants clock tokens_response
               refresh_run).1 in
  headers (reqMiddleWare sample_constants on items σ') !! "Authorization"
  = Some "tok1"
  /\ refresh_body sample_constants σ'
     = JObj {[ "refreshToken" := JStr "tok2" ]}.
Proof.
  intros σ'.
  assert (Hkeys : COOKIE_KEY_ACCESS_TOKEN sample_constants
                  <> COOKIE_KEY_REFRESH_TOKEN sample_constants)
    by discriminate.
  destruct (stored_tokens_are_used sample_constants Script clock on items
              tokens_response refresh_run Hkeys) as [Ha Hr].
  split.
  - apply (Ha "tok1"); [reflexivity | discriminate | reflexivity].
  - apply (Hr "tok2"); [reflexivity | discriminate].
Defined.


(** Ten rounds against a world that always answers 401 settle nothing. *)
Lemma refresh_never_settles_witness :
  instance sample_constants clock always_expired on 10 items refresh_run
  = None.
Proof.
  apply (refresh_never_settles sample_constants Script clock always_expired
           on).
  - reflexivity.
  - intros c w. eexists. eexists. eexists. reflexivity.
Defined.

(** The refresh endpoint answers with the token in a header: the retry
    carries it. *)
Lemma refresh_token_from_header_witness :
  exists σ1 : State Script,
    getNewToken sample_constants clock (run on 1) items header_run
    = run on 1 (retry_config sample_constants items σ1) σ1
    /\ headers (reqMiddleWare sample_constants on
                  (retry_config sample_constants items σ1) σ1)
         !! "Authorization"
       = Some "hdr tok".
Proof.
  edestruct (refresh_token_from_header sample_constants Script clock
               script_network on 0 items header_run)
    as (Hrun & Hauth).
  - discriminate.
  - reflexivity.
  - reflexivity.
  - reflexivity.
  - discriminate.
  - discriminate.
  - discriminate.
  - reflexivity.
  - eexists. split; [exact Hrun|exact Hauth].
Defined.
